(** * Verification of the Discord bot cogs [cogs/aichat.py] and
      [cogs/gift_operationsapi.py]

    The development embeds the two cogs shallowly:

    - the SQLite table [ai_chat_history] is a list of rows together with
      the auto-increment counter; the three SQL statements of [AIChat]
      are functions on it ([ORDER BY id DESC] is a real sort);
    - Python's control flow (exceptions, [try]/[except], [print]) is a
      small state-and-exception monad; a storage fault is an oracle that
      tells, for every call of the [sqlite3] API, whether it raises;
    - [GiftOperationsAPI.remove_giftcode] runs against a persistent
      connection and a remote HTTP endpoint, both explicit in the state. *)

From Stdlib Require Import List ZArith String Bool Lia Arith.
From Stdlib Require Import Sorting.Permutation Sorting.Sorted DecimalString.
Import ListNotations.

Open Scope string_scope.
Open Scope Z_scope.

(** ** Python outcomes and the state-and-exception monad *)

(** An exception object; [str(e)] is its message. *)
Inductive py_exn : Type :=
| PyException (msg : string).

Definition str_exn (e : py_exn) : string :=
  match e with PyException msg => msg end.

Inductive outcome (A : Type) : Type :=
| Returned (a : A)
| Raised (e : py_exn).

Arguments Returned {A} a.
Arguments Raised {A} e.

Module PyMonad.

Definition M (S A : Type) : Type := S -> outcome A * S.

Definition ret {S A} (a : A) : M S A := fun s => (Returned a, s).

Definition bind {S A B} (m : M S A) (k : A -> M S B) : M S B :=
  fun s =>
    match m s with
    | (Returned a, s') => k a s'
    | (Raised e, s') => (Raised e, s')
    end.

Definition raise {S A} (e : py_exn) : M S A := fun s => (Raised e, s).

Definition get {S} : M S S := fun s => (Returned s, s).

Definition modify {S} (f : S -> S) : M S unit := fun s => (Returned tt, f s).

(** [try: body except Exception as e: handler e].  The exceptions modelled
    are those of class [Exception]; the cancellation of a task and the exit
    of the interpreter are not modelled. *)
Definition try_except {S A} (body : M S A) (handler : py_exn -> M S A) : M S A :=
  fun s =>
    match body s with
    | (Returned a, s') => (Returned a, s')
    | (Raised e, s') => handler e s'
    end.

End PyMonad.
Import PyMonad.

Declare Scope py_scope.
Delimit Scope py_scope with py.
Notation "x <- m ;; k" := (bind m (fun x => k))
  (at level 61, m at next level, right associativity) : py_scope.
Notation "m ;; k" := (bind m (fun _ => k))
  (at level 61, right associativity) : py_scope.

(** ** The table [ai_chat_history] *)

Record row : Type := mkRow {
  id : Z;
  user_id : Z;
  channel_name : string;
  role : string;
  content : string
}.

(** Modelled from the spec: the [CREATE TABLE] statement of
    [ai_chat_history] is not part of the sources.  The spec describes
    "a table keyed by an auto-incrementing sequence/id column with columns
    (user_id, channel_name, role, content)": [autoinc] is the largest id
    handed out so far, and an insert takes the next one. *)
Record table : Type := mkTable {
  rows : list row;
  autoinc : Z
}.

Definition empty_table : table := {| rows := []; autoinc := 0 |}.

Definition max_id (l : list row) : Z :=
  fold_right (fun r m => Z.max (id r) m) 0 l.

Definition next_id (t : table) : Z := Z.max (autoinc t) (max_id (rows t)) + 1.

(** [INSERT INTO ai_chat_history (user_id, channel_name, role, content)
     VALUES (?, ?, ?, ?)] *)
Definition sql_insert (t : table) (uid : Z) (ch rl ct : string) : table :=
  {| rows := rows t ++ [mkRow (next_id t) uid ch rl ct];
     autoinc := next_id t |}.

(** [WHERE user_id = ? AND channel_name = ?] *)
Definition where_key (uid : Z) (ch : string) (r : row) : bool :=
  (user_id r =? uid) && (channel_name r =? ch)%string.

(** [ORDER BY id DESC] *)
Fixpoint insert_desc (r : row) (l : list row) : list row :=
  match l with
  | [] => [r]
  | x :: l' => if id x <? id r then r :: l else x :: insert_desc r l'
  end.

Definition order_by_id_desc (l : list row) : list row :=
  fold_right insert_desc [] l.

(** [SELECT role, content FROM ai_chat_history
     WHERE user_id = ? AND channel_name = ? ORDER BY id DESC LIMIT ?] *)
Definition sql_select_recent (t : table) (uid : Z) (ch : string) (limit : nat)
  : list (string * string) :=
  map (fun r => (role r, content r))
      (firstn limit (order_by_id_desc (filter (where_key uid ch) (rows t)))).

(** [SELECT id FROM ai_chat_history
     WHERE user_id = ? AND channel_name = ? ORDER BY id DESC LIMIT -1 OFFSET ?] *)
Definition sql_select_old_ids (t : table) (uid : Z) (ch : string) (offset : nat)
  : list Z :=
  map id (skipn offset (order_by_id_desc (filter (where_key uid ch) (rows t)))).

(** [DELETE FROM ai_chat_history WHERE id = ?] *)
Definition sql_delete_id (t : table) (i : Z) : table :=
  {| rows := filter (fun r => negb (id r =? i)) (rows t);
     autoinc := autoinc t |}.

(** [cursor.executemany("DELETE ... WHERE id = ?", [(i,) for i in to_delete])] *)
Definition sql_delete_ids (t : table) (ids : list Z) : table :=
  fold_left sql_delete_id ids t.

(** ** The process state and the [sqlite3] calls *)

(** What outlives a call: the database file and what was printed. *)
Record world : Type := mkWorld {
  disk : table;
  stdout : list string
}.

(** The state of a running method: the world and its local variables that
    are still live after the [try] statement. *)
Record frame (L : Type) : Type := mkFrame {
  env : world;
  locals : L
}.
Arguments mkFrame {L} env locals.
Arguments env {L} f.
Arguments locals {L} f.

(** The calls of the [sqlite3] API the two methods make, in program order. *)
Inductive db_call : Type :=
| Connect
| Cursor
| ExecuteSelectRecent
| FetchallRecent
| ExecuteInsert
| CommitInsert
| ExecuteSelectOld
| FetchallOld
| ExecutemanyDelete
| CommitDelete
| Close.

(** The fault oracle: [Some e] when that call raises [e]. *)
Definition faults : Type := db_call -> option py_exn.

Definition no_faults : faults := fun _ => None.

Definition db_call_eqb (a b : db_call) : bool :=
  match a, b with
  | Connect, Connect | Cursor, Cursor
  | ExecuteSelectRecent, ExecuteSelectRecent | FetchallRecent, FetchallRecent
  | ExecuteInsert, ExecuteInsert | CommitInsert, CommitInsert
  | ExecuteSelectOld, ExecuteSelectOld | FetchallOld, FetchallOld
  | ExecutemanyDelete, ExecutemanyDelete | CommitDelete, CommitDelete
  | Close, Close => true
  | _, _ => false
  end.

Definition fault_at (c : db_call) (e : py_exn) : faults :=
  fun c' => if db_call_eqb c c' then Some e else None.

Section Storage.

Variable F : faults.
Context {L : Type}.

(** A call of the API: raises when the oracle says so, else yields [a]. *)
Definition db (c : db_call) {A} (a : A) : M (frame L) A :=
  match F c with
  | Some e => raise e
  | None => ret a
  end.

(** [sqlite3.connect(self.db_path)]: the connection sees the file. *)
Definition sqlite3_connect : M (frame L) table :=
  (fr <- get ;; db Connect (disk (env fr)))%py.

(** [conn.commit()]: the connection's view becomes the file. *)
Definition conn_commit (c : db_call) (view : table) : M (frame L) unit :=
  (db c tt ;;
   modify (fun fr => mkFrame (mkWorld view (stdout (env fr))) (locals fr)))%py.

(** [print(line)] *)
Definition print (line : string) : M (frame L) unit :=
  modify (fun fr =>
    mkFrame (mkWorld (disk (env fr)) (stdout (env fr) ++ [line])%list)
            (locals fr)).

Definition set_locals (f : L -> L) : M (frame L) unit :=
  modify (fun fr => mkFrame (env fr) (f (locals fr))).

End Storage.

(** ** [class AIChat] *)

(** A chat message: the dict [{"role": ..., "content": ...}]. *)
Record message : Type := mkMessage {
  msg_role : string;
  msg_content : string
}.

Definition HISTORY_LENGTH_default : nat := 10.

Definition system_prompt : string :=
  "Jesteś realistycznym polskim nastolatkiem (ok. 17 lat). Masz mnóstwo zainteresowań: gry komputerowe i planszowe, sport, muzyka, filmy, seriale, anime, programowanie, podróże, memy, gotowanie, motoryzacja, nauka, historia, technologia i wiele innych – możesz rozmawiać na każdy temat, a rozmowa z Tobą nigdy nie jest nudna. Mówisz młodzieżowym, swobodnym, naturalnym stylem, czasem wtrącasz potoczne zwroty i emotki (np. XD, git, spoko, ej, lol), ale nie przesadzasz – starasz się, by każda odpowiedź była autentyczna, luźna, ale nie karykaturalna. Gdy rozmowa schodzi na temat relacji, uczuć lub zakochania, stajesz się dobrym romantykiem: jesteś empatyczny, wrażliwy i wspierający, potrafisz okazać zrozumienie i napisać coś miłego lub dać poradę. Zawsze reagujesz tak, jak prawdziwy, otwarty i ogarnięty nastolatek z Discorda – czasem żartujesz, czasem jesteś poważny, zależnie od tonu rozmowy.".

Definition system_message : message := mkMessage "system" system_prompt.

Section AIChat.

(** The module constant [HISTORY_LENGTH] (10 in the source). *)
Variable HISTORY_LENGTH : nat.
Variable F : faults.

Definition get_history_body (uid : Z) (ch : string)
  : M (frame (list message)) unit :=
  (conn <- sqlite3_connect F ;;
   db F Cursor tt ;;
   db F ExecuteSelectRecent tt ;;
   fetched <- db F FetchallRecent
                (sql_select_recent conn uid ch (HISTORY_LENGTH * 2)) ;;
   set_locals (fun history =>
     (history ++ map (fun r => mkMessage (fst r) (snd r)) (rev fetched))%list) ;;
   db F Close tt)%py.

Definition get_history (uid : Z) (ch : string) : M world (list message) :=
  fun w =>
    let '(o, fr) :=
      try_except (get_history_body uid ch)
        (fun e => print ("Błąd pobierania historii AI: " ++ str_exn e))
        (mkFrame w [system_message]) in
    (match o with
     | Returned _ => Returned (locals fr)
     | Raised e => Raised e
     end, env fr).

Definition save_message_body (uid : Z) (ch rl ct : string)
  : M (frame unit) unit :=
  (conn <- sqlite3_connect F ;;
   db F Cursor tt ;;
   conn <- db F ExecuteInsert (sql_insert conn uid ch rl ct) ;;
   conn_commit F CommitInsert conn ;;
   db F ExecuteSelectOld tt ;;
   old_ids <- db F FetchallOld
                (sql_select_old_ids conn uid ch (HISTORY_LENGTH * 2)) ;;
   match old_ids with
   | [] => ret tt
   | _ :: _ =>
       let to_delete := old_ids in
       conn <- db F ExecutemanyDelete (sql_delete_ids conn to_delete) ;;
       conn_commit F CommitDelete conn
   end ;;
   db F Close tt)%py.

Definition save_message (uid : Z) (ch rl ct : string) : M world unit :=
  fun w =>
    let '(o, fr) :=
      try_except (save_message_body uid ch rl ct)
        (fun e => print ("Błąd zapisu historii AI: " ++ str_exn e))
        (mkFrame w tt) in
    (o, env fr).

End AIChat.

(** ** Derived notions used in the statements *)

(** The stored turns of a key, in table order, and their number. *)
Definition turns_of (uid : Z) (ch : string) (t : table) : list row :=
  filter (where_key uid ch) (rows t).

Definition count_key (uid : Z) (ch : string) (t : table) : nat :=
  List.length (turns_of uid ch t).

(** [id] is the primary key: no two rows share it. *)
Definition table_ok (t : table) : Prop := NoDup (map id (rows t)).

(** The rows a list of ids does not name. *)
Definition keeps (ids : list Z) (r : row) : bool :=
  negb (existsb (Z.eqb (id r)) ids).

(** The table a fault-free [save_message] leaves on disk: the insert,
    then the trim of the key's rows past the window. *)
Definition inserted_and_trimmed (hl : nat) (t : table) (uid : Z) (ch rl ct : string)
  : table :=
  let t1 := sql_insert t uid ch rl ct in
  sql_delete_ids t1 (sql_select_old_ids t1 uid ch (hl * 2)).

(** The worlds after each of a sequence of [save_message] calls on one key. *)
Fixpoint worlds_after (hl : nat) (F : faults) (uid : Z) (ch : string)
    (turns : list (string * string)) (w : world) : list world :=
  match turns with
  | [] => []
  | (rl, ct) :: rest =>
      let w' := snd (save_message hl F uid ch rl ct w) in
      w' :: worlds_after hl F uid ch rest w'
  end.

(** *** The read contract in the words of the spec

    The spec orders turns by their sequence number ("chronological
    (insertion) order"), and [fetch_recent] "returns the most recent
    [limit] turns for the key, in chronological order (oldest first within
    the returned window); if fewer than [limit] turns exist, returns all of
    them".  These definitions follow that wording and are compared with
    [get_history] below. *)

Fixpoint insert_asc (r : row) (l : list row) : list row :=
  match l with
  | [] => [r]
  | x :: l' => if id r <? id x then r :: l else x :: insert_asc r l'
  end.

Definition chronological (uid : Z) (ch : string) (t : table) : list row :=
  fold_right insert_asc [] (turns_of uid ch t).

Definition most_recent {A} (limit : nat) (l : list A) : list A :=
  skipn (List.length l - limit) l.

Definition to_message (r : row) : message := mkMessage (role r) (content r).

Definition fetch_recent_spec (limit : nat) (t : table) (uid : Z) (ch : string)
  : list message :=
  map to_message (most_recent limit (chronological uid ch t)).

(** ** Notions used in the proofs and statements *)

Definition id_ge (a b : row) : Prop := id b <= id a.

Definition write_error_line (e : py_exn) : string :=
  "Błąd zapisu historii AI: " ++ str_exn e.

Definition read_error_line (e : py_exn) : string :=
  "Błąd pobierania historii AI: " ++ str_exn e.

Definition id_le (a b : row) : Prop := id a <= id b.
Definition id_lt (a b : row) : Prop := id a < id b.

(** The fetched rows as messages, oldest first: the loop over
    [reversed(rows)]. *)
Definition recent_messages (hl : nat) (t : table) (uid : Z) (ch : string)
  : list message :=
  map (fun r => mkMessage (fst r) (snd r))
      (rev (sql_select_recent t uid ch (hl * 2))).

(** The first call of a list that the oracle makes raise. *)
Definition first_fault (F : faults) (calls : list db_call) : option py_exn :=
  fold_right (fun c later => match F c with Some e => Some e | None => later end)
             None calls.

(** The calls a run of [save_message] reaches when none raises: the
    delete and its commit only when the key has rows past the window. *)
Definition save_message_calls (hl : nat) (t : table) (uid : Z) (ch rl ct : string)
  : list db_call :=
  [Connect; Cursor; ExecuteInsert; CommitInsert; ExecuteSelectOld; FetchallOld]
  ++ match sql_select_old_ids (sql_insert t uid ch rl ct) uid ch (hl * 2) with
     | [] => []
     | _ :: _ => [ExecutemanyDelete; CommitDelete]
     end
  ++ [Close].

(** The calls of [get_history] up to the one that yields the rows. *)
Definition get_history_read_calls : list db_call :=
  [Connect; Cursor; ExecuteSelectRecent; FetchallRecent].

(** The six appends of the scenario, from the empty store. *)
Definition six_turns (hl : nat) (uid : Z) (ch u1 a1 u2 a2 u3 a3 : string) : world :=
  fold_left (fun w turn => snd (save_message hl no_faults uid ch (fst turn) (snd turn) w))
    [("user", u1); ("assistant", a1); ("user", u2);
     ("assistant", a2); ("user", u3); ("assistant", a3)]
    (mkWorld empty_table []).

(** ** [class GiftOperationsAPI] *)

Module GiftOps.

(** A parsed JSON value, as [json.loads] returns it. *)
#[local] Unset Elimination Schemes.
Inductive json : Type :=
| JNull
| JBool (b : bool)
| JNumber (n : Z)
| JString (s : string)
| JArray (items : list json)
| JObject (fields : list (string * json)).
#[local] Set Elimination Schemes.

Record http_request : Type := mkRequest {
  req_method : string;
  req_url : string;
  req_json : list (string * string);
  req_headers : list (string * string)
}.

Record http_response : Type := mkResponse {
  status : Z;
  text : string
}.

(** What is written to the terminal: [print] lines and the tracebacks of
    [traceback.print_exc()]. *)
Inductive log_event : Type :=
| Printed (line : string)
| Traceback (e : py_exn).

Inductive gift_db_call : Type :=
| DeleteGiftCode
| DeleteUserGiftcode
| Commit.

Section Tables.

(** The rows of [gift_codes] and [user_giftcodes]; the statements of
    [remove_giftcode] read their [giftcode] column only. *)
Context {gift_code_row user_giftcode_row : Type}.
Variable gc_giftcode : gift_code_row -> string.
Variable ug_giftcode : user_giftcode_row -> string.

Record gift_db : Type := mkGiftDb {
  gift_codes : list gift_code_row;
  user_giftcodes : list user_giftcode_row
}.

(** The object and its surroundings: the fields set by [__init__]
    ([self.conn] is the table as the open connection sees it,
    uncommitted changes included), the database file, the requests
    sent so far and the terminal. *)
Record api_state : Type := mkApi {
  api_url : string;
  api_key : string;
  conn : gift_db;
  file : gift_db;
  sent : list http_request;
  terminal : list log_event
}.

(** The remote endpoint, the JSON parser and the storage faults. *)
Variable remote : http_request -> outcome http_response.
Variable json_loads : string -> outcome json.
Variable db_fault : gift_db_call -> option py_exn.

Definition lift {A} (o : outcome A) : M api_state A :=
  fun s => (o, s).

Definition gift_print (line : string) : M api_state unit :=
  modify (fun s => mkApi (api_url s) (api_key s) (conn s) (file s) (sent s)
                         (terminal s ++ [Printed line])).

Definition print_exc (e : py_exn) : M api_state unit :=
  modify (fun s => mkApi (api_url s) (api_key s) (conn s) (file s) (sent s)
                         (terminal s ++ [Traceback e])).

(** [session.delete(self.api_url, json=data, headers=headers)] and
    [await response.text()] *)
Definition session_delete (data headers : list (string * string))
  : M api_state http_response :=
  (s <- get ;;
   let rq := mkRequest "DELETE" (api_url s) data headers in
   modify (fun s => mkApi (api_url s) (api_key s) (conn s) (file s)
                          (sent s ++ [rq]) (terminal s)) ;;
   lift (remote rq))%py.

Definition gift_db_step (c : gift_db_call) (f : api_state -> api_state)
  : M api_state unit :=
  match db_fault c with
  | Some e => raise e
  | None => modify f
  end.

(** [self.cursor.execute("DELETE FROM gift_codes WHERE giftcode = ?", ...)] *)
Definition delete_gift_code (giftcode : string) : M api_state unit :=
  gift_db_step DeleteGiftCode (fun s =>
    mkApi (api_url s) (api_key s)
          (mkGiftDb
             (filter (fun r => negb (gc_giftcode r =? giftcode)%string)
                     (gift_codes (conn s)))
             (user_giftcodes (conn s)))
          (file s) (sent s) (terminal s)).

(** [self.cursor.execute("DELETE FROM user_giftcodes WHERE giftcode = ?", ...)] *)
Definition delete_user_giftcode (giftcode : string) : M api_state unit :=
  gift_db_step DeleteUserGiftcode (fun s =>
    mkApi (api_url s) (api_key s)
          (mkGiftDb
             (gift_codes (conn s))
             (filter (fun r => negb (ug_giftcode r =? giftcode)%string)
                     (user_giftcodes (conn s))))
          (file s) (sent s) (terminal s)).

(** [self.conn.commit()] *)
Definition gift_commit : M api_state unit :=
  gift_db_step Commit (fun s =>
    mkApi (api_url s) (api_key s) (conn s) (conn s) (sent s) (terminal s)).

Definition json_is_string (s : string) (j : json) : bool :=
  match j with
  | JString s' => (s =? s')%string
  | _ => false
  end.

(** ['success' in result]: a key of a dict, an element of a list, a
    substring of a string; a [TypeError] on anything else. *)
Definition py_in (s : string) (result : json) : outcome bool :=
  match result with
  | JObject fields => Returned (existsb (fun kv => (fst kv =? s)%string) fields)
  | JArray items => Returned (existsb (json_is_string s) items)
  | JString s' =>
      Returned (match String.index 0 s s' with Some _ => true | None => false end)
  | JNull | JBool _ | JNumber _ =>
      Raised (PyException "argument is not iterable")
  end.

Definition str_int (n : Z) : string :=
  DecimalString.NilZero.string_of_int (Z.to_int n).

Definition remove_giftcode (giftcode : string) (from_validation : bool)
  : M api_state bool :=
  try_except
    (if negb from_validation then ret false
     else
       (s <- get ;;
        let headers := [("Content-Type", "application/json");
                        ("X-API-Key", api_key s)] in
        let data := [("code", giftcode)] in
        response <- session_delete data headers ;;
        let response_text := text response in
        if status response =? 200 then
          if (response_text =? "")%string then
            (gift_print "API response is empty!" ;; ret false)
          else
            (parsed <- try_except
                 (result <- lift (json_loads response_text) ;; ret (Some result))
                 (fun e =>
                    gift_print ("API nie zwróciło poprawnego JSON: " ++ str_exn e) ;;
                    gift_print ("Treść odpowiedzi: " ++ response_text) ;;
                    ret None) ;;
             match parsed with
             | None => ret false
             | Some result =>
                 success <- lift (py_in "success" result) ;;
                 if success : bool then
                   (delete_gift_code giftcode ;;
                    delete_user_giftcode giftcode ;;
                    gift_commit ;;
                    ret success)
                 else ret false
             end)
        else
          (gift_print ("Błąd HTTP " ++ str_int (status response)) ;;
           gift_print ("Treść odpowiedzi: " ++ response_text) ;;
           ret false))%py)
    (fun e => (print_exc e ;; ret false)%py).

End Tables.

End GiftOps.

(** ** Notions for the behaviour of the store over several calls *)

(** The row an insert adds. *)
Definition new_row (t : table) (uid : Z) (ch rl ct : string) : row :=
  mkRow (next_id t) uid ch rl ct.

(** A run of [save_message] calls on one key; the world after the last. *)
Definition save_all (hl : nat) (F : faults) (uid : Z) (ch : string)
    (turns : list (string * string)) (w : world) : world :=
  fold_left (fun w turn => snd (save_message hl F uid ch (fst turn) (snd turn) w))
            turns w.

(** One call of [save_message], with its arguments. *)
Record append_call : Type := mkAppend {
  a_user_id : Z;
  a_channel_name : string;
  a_role : string;
  a_content : string
}.

(** A run of [save_message] calls on any keys, in order. *)
Definition save_calls (hl : nat) (F : faults) (calls : list append_call) (w : world)
  : world :=
  fold_left (fun w c => snd (save_message hl F (a_user_id c) (a_channel_name c)
                                          (a_role c) (a_content c) w))
            calls w.

(** Every key is within the retention window. *)
Definition all_bounded (hl : nat) (t : table) : Prop :=
  forall uid ch, (count_key uid ch t <= 2 * hl)%nat.

(** The calls of [save_message] up to the commit of the insert, and the
    calls of the trim that a run reaches. *)
Definition save_message_insert_calls : list db_call :=
  [Connect; Cursor; ExecuteInsert; CommitInsert].

Definition save_message_trim_calls (hl : nat) (t : table) (uid : Z) (ch rl ct : string)
  : list db_call :=
  [ExecuteSelectOld; FetchallOld]
  ++ match sql_select_old_ids (sql_insert t uid ch rl ct) uid ch (hl * 2) with
     | [] => []
     | _ :: _ => [ExecutemanyDelete; CommitDelete]
     end.

(** The message a turn [(role, content)] is returned as. *)
Definition turn_message (turn : string * string) : message :=
  mkMessage (fst turn) (snd turn).

(** ** [GiftOperationsAPI.sync_with_api] and notions for [remove_giftcode] *)

Module GiftSync.

Import GiftOps.

Section Sync.

Context {gift_code_row user_giftcode_row : Type}.
Variable gc_giftcode : gift_code_row -> string.
Variable ug_giftcode : user_giftcode_row -> string.

(** The [date] column of [gift_codes], read by [sync_with_api]. *)
Variable gc_date : gift_code_row -> string.

Variable remote : http_request -> outcome http_response.
Variable json_loads : string -> outcome json.

(** Whether the SELECT of [sync_with_api] raises. *)
Variable select_fault : option py_exn.

(** The tables without the rows of a gift code. *)
Definition without_gift_code (giftcode : string) (l : list gift_code_row)
  : list gift_code_row :=
  filter (fun r => negb (gc_giftcode r =? giftcode)%string) l.

Definition without_user_giftcode (giftcode : string) (l : list user_giftcode_row)
  : list user_giftcode_row :=
  filter (fun r => negb (ug_giftcode r =? giftcode)%string) l.

Definition db_without (giftcode : string) (d : @gift_db gift_code_row user_giftcode_row)
  : gift_db :=
  mkGiftDb (without_gift_code giftcode (gift_codes d))
           (without_user_giftcode giftcode (user_giftcodes d)).

(** The request [remove_giftcode] sends. *)
Definition delete_request (s : @api_state gift_code_row user_giftcode_row)
    (giftcode : string) : http_request :=
  mkRequest "DELETE" (api_url s) [("code", giftcode)]
            [("Content-Type", "application/json"); ("X-API-Key", api_key s)].

(** The request [sync_with_api] sends. *)
Definition list_request (s : @api_state gift_code_row user_giftcode_row)
  : http_request :=
  mkRequest "GET" (api_url s) []
            [("X-API-Key", api_key s); ("Content-Type", "application/json")].

(** [self.cursor.execute("SELECT giftcode, date FROM gift_codes")] and
    [self.cursor.fetchall()] *)
Definition select_gift_codes
  : M (@api_state gift_code_row user_giftcode_row) (list (string * string)) :=
  match select_fault with
  | Some e => raise e
  | None =>
      (s <- get ;;
       ret (map (fun r => (gc_giftcode r, gc_date r)) (gift_codes (conn s))))%py
  end.

(** [session.get(self.api_url, headers=headers)] and [await response.text()] *)
Definition session_get (headers : list (string * string))
  : M (@api_state gift_code_row user_giftcode_row) http_response :=
  (s <- get ;;
   let rq := mkRequest "GET" (api_url s) [] headers in
   modify (fun s => mkApi (api_url s) (api_key s) (conn s) (file s)
                          (sent s ++ [rq]) (terminal s)) ;;
   lift (remote rq))%py.

(** [result.get(key, default)]: a method of dicts only; the fields of a
    [JObject] are the items of the dict. *)
Definition py_get (key : string) (default : json) (result : json) : outcome json :=
  match result with
  | JObject fields =>
      Returned match find (fun kv => (fst kv =? key)%string) fields with
               | Some kv => snd kv
               | None => default
               end
  | _ => Raised (PyException "object has no attribute 'get'")
  end.

(** [sync_with_api] returns [False] ([Some false]) or falls off its end
    ([None]). *)
Definition sync_with_api
  : M (@api_state gift_code_row user_giftcode_row) (option bool) :=
  try_except
    (db_codes <- select_gift_codes ;;
     s <- get ;;
     let headers := [("X-API-Key", api_key s);
                     ("Content-Type", "application/json")] in
     response <- session_get headers ;;
     let response_text := text response in
     if status response =? 200 then
       if (response_text =? "")%string then
         (gift_print "API response is empty!" ;; ret (Some false))
       else
         (parsed <- try_except
              (result <- lift (json_loads response_text) ;; ret (Some result))
              (fun e =>
                 gift_print ("API nie zwróciło poprawnego JSON: " ++ str_exn e) ;;
                 gift_print ("Treść odpowiedzi: " ++ response_text) ;;
                 ret None) ;;
          match parsed with
          | None => ret (Some false)
          | Some result =>
              has_error <- lift (py_in "error" result) ;;
              if has_error : bool then ret (Some false)
              else
                (api_giftcodes <- lift (py_get "codes" (JArray []) result) ;;
                 ret None)
          end)
     else ret None)%py
    (fun e => (print_exc e ;; ret None)%py).

End Sync.

End GiftSync.

(** A small instance of the gift-code tables: rows of [gift_codes] are
    (giftcode, date), rows of [user_giftcodes] are (user, giftcode). *)
Module GiftSample.

Import GiftOps GiftSync.

Definition sample_db : @gift_db (string * string) (Z * string) :=
  mkGiftDb [("ABC", "2024-01-01"); ("XYZ", "2024-02-02")]
           [(1, "ABC"); (2, "XYZ"); (3, "ABC")].

Definition sample_state : @api_state (string * string) (Z * string) :=
  mkApi "https://gift.example/api" "key" sample_db sample_db [] [].

Definition answers (st : Z) (body : string) : http_request -> outcome http_response :=
  fun _ => Returned (mkResponse st body).

Definition parses_to (j : json) : string -> outcome json :=
  fun _ => Returned j.

Definition no_db_fault : gift_db_call -> option py_exn := fun _ => None.

Definition db_fault_at_user_delete (e : py_exn) : gift_db_call -> option py_exn :=
  fun c => match c with DeleteUserGiftcode => Some e | _ => None end.

End GiftSample.

(** ** [AIChat.on_message] *)

Definition CHANNEL_NAME : string := "porozmawiaj-z-andrzejem".
Definition OPENROUTER_API_KEY : string := "usuwam na wypadek kradziezy".
Definition MODEL : string := "meta-llama/llama-4-maverick".

(** What [on_message] reads of a [discord.Message]: [message.author.bot],
    [message.author.id], whether [message.guild] is set,
    [message.channel.name] and [message.content]. *)
Record discord_message : Type := mkDiscordMessage {
  m_author_bot : bool;
  m_author_id : Z;
  m_guild : bool;
  m_channel_name : string;
  m_content : string
}.

(** The call [requests.post(url, headers=headers, json=data, timeout=45)];
    [cr_temperature] is the literal [0.7]. *)
Record chat_request : Type := mkChatRequest {
  cr_url : string;
  cr_headers : list (string * string);
  cr_model : string;
  cr_messages : list message;
  cr_max_tokens : Z;
  cr_temperature : string;
  cr_timeout : Z
}.

Record chat_response : Type := mkChatResponse {
  status_code : Z;
  response_text : string
}.

(** What the bot does on Discord: [message.channel.typing()] and
    [message.reply(content, mention_author=...)]. *)
Inductive discord_event : Type :=
| Typing (channel : string)
| Reply (reply : string) (mention_author : bool).

Record bot_state : Type := mkBot {
  store : world;
  discord : list discord_event;
  posted : list chat_request
}.

Definition newline : string := String (Ascii.ascii_of_nat 10) EmptyString.

Section OnMessage.

Variable HISTORY_LENGTH : nat.

(** [str.strip] *)
Variable strip : string -> string.

(** The storage faults of the three calls into the store, in order. *)
Variables F_history F_user F_assistant : faults.

(** Whether [typing()] raises, and whether [reply(content)] does. *)
Variable typing_fault : option py_exn.
Variable reply_fault : string -> option py_exn.

(** The chat-completion endpoint, and the evaluation of
    [response.json()["choices"][0]["message"]["content"]] on a body whose
    content field is text (it raises on any other body). *)
Variable post : chat_request -> outcome chat_response.
Variable reply_content : string -> outcome string.

Definition lift_store {A} (m : M world A) : M bot_state A :=
  fun s =>
    let '(o, w) := m (store s) in
    (o, mkBot w (discord s) (posted s)).

Definition lift_outcome {A} (o : outcome A) : M bot_state A :=
  fun s => (o, s).

Definition channel_typing (channel : string) : M bot_state unit :=
  match typing_fault with
  | Some e => raise e
  | None =>
      modify (fun s => mkBot (store s) (discord s ++ [Typing channel]) (posted s))
  end.

Definition message_reply (reply : string) (mention_author : bool)
  : M bot_state unit :=
  match reply_fault reply with
  | Some e => raise e
  | None =>
      modify (fun s => mkBot (store s) (discord s ++ [Reply reply mention_author])
                             (posted s))
  end.

Definition requests_post (rq : chat_request) : M bot_state chat_response :=
  (modify (fun s => mkBot (store s) (discord s) (posted s ++ [rq])) ;;
   lift_outcome (post rq))%py.

Definition bot_print (line : string) : M bot_state unit :=
  modify (fun s =>
    mkBot (mkWorld (disk (store s)) (stdout (store s) ++ [line])%list)
          (discord s) (posted s)).

(** The request built from the history and the prompt. *)
Definition chat_request_of (history : list message) : chat_request :=
  mkChatRequest
    "https://openrouter.ai/api/v1/chat/completions"
    [("Authorization", "Bearer " ++ OPENROUTER_API_KEY);
     ("Content-Type", "application/json");
     ("HTTP-Referer", "https://discord.com")]
    MODEL history 512 "0.7" 45.

Definition on_message (message : discord_message) : M bot_state unit :=
  if m_author_bot message || negb (m_guild message) then ret tt
  else if negb (m_channel_name message =? CHANNEL_NAME)%string then ret tt
  else if (strip (m_content message) =? "")%string then ret tt
  else
    let user_id := m_author_id message in
    let prompt := strip (m_content message) in
    let channel_name := m_channel_name message in
    (history <- lift_store (get_history HISTORY_LENGTH F_history user_id channel_name) ;;
     let history := (history ++ [mkMessage "user" prompt])%list in
     channel_typing channel_name ;;
     try_except
       (response <- requests_post (chat_request_of history) ;;
        if status_code response =? 200 then
          (ai_reply <- lift_outcome (reply_content (response_text response)) ;;
           message_reply ai_reply false ;;
           lift_store (save_message HISTORY_LENGTH F_user
                         user_id channel_name "user" prompt) ;;
           lift_store (save_message HISTORY_LENGTH F_assistant
                         user_id channel_name "assistant" ai_reply))
        else
          (bot_print (newline ++ "[AI ERROR RESPONSE] "
                      ++ GiftOps.str_int (status_code response) ++ " "
                      ++ response_text response ++ " " ++ newline) ;;
           message_reply "Wystąpił błąd przy komunikacji z AI." false))
       (fun e =>
          message_reply "Wystąpił błąd techniczny." false ;;
          bot_print ("Błąd AIChat: " ++ str_exn e)))%py.

End OnMessage.

(** The result of [on_message] when it ignores the message. *)
Definition ignored (message : discord_message) (strip : string -> string) : Prop :=
  m_author_bot message = true \/ m_guild message = false \/
  m_channel_name message <> CHANNEL_NAME \/ strip (m_content message) = "".

(** The message passes the three tests at the head of [on_message]. *)
Definition handled (message : discord_message) (strip : string -> string) : Prop :=
  m_author_bot message = false /\ m_guild message = true /\
  m_channel_name message = CHANNEL_NAME /\ strip (m_content message) <> "".

(** The turn [on_message] makes of the message. *)
Definition prompt_message (msg : discord_message) (strip : string -> string)
  : message :=
  mkMessage "user" (strip (m_content msg)).

Definition ai_error_line (st : Z) (body : string) : string :=
  newline ++ "[AI ERROR RESPONSE] " ++ GiftOps.str_int st ++ " " ++ body
  ++ " " ++ newline.

(** A small instance of the surroundings of [on_message]. *)
Module BotSample.

Definition sample_bot : bot_state := mkBot (mkWorld empty_table []) [] [].

Definition sample_message : discord_message :=
  mkDiscordMessage false 7 true CHANNEL_NAME "hej".

Definition sample_bot_message : discord_message :=
  mkDiscordMessage true 8 true CHANNEL_NAME "beep".

(** [str.strip] on texts without outer white space. *)
Definition stripped (text : string) : string := text.

Definition replies_delivered : string -> option py_exn := fun _ => None.

Definition endpoint_answers (st : Z) (body : string)
  : chat_request -> outcome chat_response :=
  fun _ => Returned (mkChatResponse st body).

Definition endpoint_raises (e : py_exn) : chat_request -> outcome chat_response :=
  fun _ => Raised e.

Definition content_is (ai : string) : string -> outcome string :=
  fun _ => Returned ai.

End BotSample.

(** ** Lists, sorting and the SQL statements *)

Section ListFacts.

Context {A : Type}.

Lemma Permutation_filter (f : A -> bool) (l l' : list A) :
  Permutation l l' -> Permutation (filter f l) (filter f l').
Proof.
  induction 1 as [| x l l' _ IH | x y l | l l' l'' _ IH1 _ IH2]; simpl.
  - constructor.
  - destruct (f x); auto.
  - destruct (f x), (f y); auto using perm_swap.
  - now transitivity (filter f l').
Qed.

Lemma filter_comm (f g : A -> bool) (l : list A) :
  filter f (filter g l) = filter g (filter f l).
Proof.
  induction l as [| x l IH]; simpl; auto.
  destruct (g x) eqn:Hg, (f x) eqn:Hf; simpl; rewrite ?Hg, ?Hf, IH; auto.
Qed.

Lemma filter_none (f : A -> bool) (l : list A) :
  (forall x, In x l -> f x = false) -> filter f l = [].
Proof.
  induction l as [| x l IH]; simpl; intros H; auto.
  rewrite (H x) by auto. apply IH. auto.
Qed.

Lemma filter_all (f : A -> bool) (l : list A) :
  (forall x, In x l -> f x = true) -> filter f l = l.
Proof.
  induction l as [| x l IH]; simpl; intros H; auto.
  rewrite (H x) by auto. f_equal. apply IH. auto.
Qed.

Lemma In_skipn_In (n : nat) (l : list A) (x : A) :
  In x (skipn n l) -> In x l.
Proof.
  intros H. rewrite <- (firstn_skipn n l). apply in_or_app. now right.
Qed.

Lemma In_firstn_In (n : nat) (l : list A) (x : A) :
  In x (firstn n l) -> In x l.
Proof.
  intros H. rewrite <- (firstn_skipn n l). apply in_or_app. now left.
Qed.

Lemma filter_length_le (f : A -> bool) (l : list A) :
  (List.length (filter f l) <= List.length l)%nat.
Proof.
  induction l as [| x l IH]; simpl; auto.
  destruct (f x); simpl; lia.
Qed.

End ListFacts.

Lemma insert_desc_perm (r : row) (l : list row) :
  Permutation (insert_desc r l) (r :: l).
Proof.
  induction l as [| x l IH]; simpl; auto.
  destruct (id x <? id r); auto.
  rewrite IH. apply perm_swap.
Qed.

Lemma order_by_id_desc_perm (l : list row) :
  Permutation (order_by_id_desc l) l.
Proof.
  induction l as [| x l IH]; simpl; auto.
  rewrite insert_desc_perm. auto.
Qed.

Lemma insert_desc_sorted (r : row) (l : list row) :
  StronglySorted id_ge l -> StronglySorted id_ge (insert_desc r l).
Proof.
  induction 1 as [| x l Hs IH Hx]; simpl.
  - repeat constructor.
  - destruct (id x <? id r) eqn:E.
    + apply Z.ltb_lt in E. constructor.
      * constructor; auto.
      * constructor; [unfold id_ge; lia |].
        eapply Forall_impl; [| exact Hx]. unfold id_ge. intros; lia.
    + apply Z.ltb_ge in E. constructor; auto.
      rewrite Forall_forall. intros y Hy.
      apply (Permutation_in _ (insert_desc_perm r l)) in Hy.
      destruct Hy as [<- | Hy]; [exact E |].
      rewrite Forall_forall in Hx. auto.
Qed.

Lemma order_by_id_desc_sorted (l : list row) :
  StronglySorted id_ge (order_by_id_desc l).
Proof.
  induction l as [| x l IH]; simpl.
  - constructor.
  - now apply insert_desc_sorted.
Qed.

Lemma order_by_id_desc_In (l : list row) (r : row) :
  In r (order_by_id_desc l) <-> In r l.
Proof.
  split; apply Permutation_in;
    [| symmetry]; apply order_by_id_desc_perm.
Qed.

(** In a list sorted by descending id, everything past an offset is at
    most as recent as everything before it. *)
Lemma sorted_firstn_skipn (n : nat) (l : list row) (a b : row) :
  StronglySorted id_ge l ->
  In a (firstn n l) -> In b (skipn n l) -> id b <= id a.
Proof.
  intros Hs. revert n. induction Hs as [| x l Hs IH Hx]; intros n Ha Hb.
  - rewrite firstn_nil in Ha. contradiction.
  - destruct n as [| n]; simpl in *; [contradiction |].
    destruct Ha as [<- | Ha].
    + rewrite Forall_forall in Hx. apply Hx.
      apply (In_skipn_In n). exact Hb.
    + eauto.
Qed.

Lemma rows_sql_delete_ids (ids : list Z) (t : table) :
  rows (sql_delete_ids t ids) = filter (keeps ids) (rows t).
Proof.
  unfold sql_delete_ids. revert t.
  induction ids as [| i ids IH]; intros t; simpl.
  - symmetry. apply filter_all. reflexivity.
  - rewrite IH. simpl. clear IH.
    induction (rows t) as [| r l IHl]; simpl; auto.
    unfold keeps at 2. simpl.
    destruct (id r =? i) eqn:E; simpl; [exact IHl |].
    fold (keeps ids r). destruct (keeps ids r); simpl; rewrite IHl; auto.
Qed.

Lemma autoinc_sql_delete_ids (ids : list Z) (t : table) :
  autoinc (sql_delete_ids t ids) = autoinc t.
Proof.
  unfold sql_delete_ids. revert t.
  induction ids as [| i ids IH]; intros t; simpl; auto.
  now rewrite IH.
Qed.

Lemma keeps_false_iff (ids : list Z) (r : row) :
  keeps ids r = false <-> In (id r) ids.
Proof.
  unfold keeps. rewrite negb_false_iff, existsb_exists. split.
  - intros (i & Hi & E). apply Z.eqb_eq in E. now subst.
  - intros H. exists (id r). split; auto. apply Z.eqb_refl.
Qed.

Lemma keeps_true_iff (ids : list Z) (r : row) :
  keeps ids r = true <-> ~ In (id r) ids.
Proof.
  rewrite <- keeps_false_iff. destruct (keeps ids r); split; congruence.
Qed.

(** ** Running the two methods *)

Ltac run_py :=
  unfold sqlite3_connect, conn_commit, set_locals, print;
  unfold try_except, bind, db, get, modify, ret, raise, no_faults; simpl.

Lemma inserted_and_trimmed_nil (hl : nat) (t : table) (uid : Z) (ch rl ct : string) :
  sql_select_old_ids (sql_insert t uid ch rl ct) uid ch (hl * 2) = [] ->
  inserted_and_trimmed hl t uid ch rl ct = sql_insert t uid ch rl ct.
Proof.
  unfold inserted_and_trimmed. simpl. intros ->. reflexivity.
Qed.

Lemma save_message_no_faults (hl : nat) (uid : Z) (ch rl ct : string) (w : world) :
  save_message hl no_faults uid ch rl ct w =
  (Returned tt,
   mkWorld (inserted_and_trimmed hl (disk w) uid ch rl ct) (stdout w)).
Proof.
  unfold save_message, save_message_body. run_py.
  destruct (sql_select_old_ids _ uid ch (hl * 2)) as [| i ids] eqn:E; simpl.
  - now rewrite inserted_and_trimmed_nil.
  - unfold inserted_and_trimmed. simpl. now rewrite E.
Qed.

(** Whatever the faults, [save_message] returns [None]; the file holds the
    old table, the table with the new row, or the trimmed table; at most
    one line is printed. *)
Lemma save_message_cases (hl : nat) (F : faults) (uid : Z) (ch rl ct : string)
    (w : world) :
  exists d out,
    save_message hl F uid ch rl ct w = (Returned tt, mkWorld d out) /\
    (d = disk w \/ d = sql_insert (disk w) uid ch rl ct \/
     d = inserted_and_trimmed hl (disk w) uid ch rl ct) /\
    (out = stdout w \/ exists e, out = (stdout w ++ [write_error_line e])%list).
Proof.
  unfold save_message, save_message_body, write_error_line. run_py.
  destruct (F Connect) eqn:?; simpl; [eauto 8 |].
  destruct (F Cursor) eqn:?; simpl; [eauto 8 |].
  destruct (F ExecuteInsert) eqn:?; simpl; [eauto 8 |].
  destruct (F CommitInsert) eqn:?; simpl; [eauto 8 |].
  destruct (F ExecuteSelectOld) eqn:?; simpl; [eauto 10 |].
  destruct (F FetchallOld) eqn:?; simpl; [eauto 10 |].
  destruct (sql_select_old_ids _ uid ch (hl * 2)) as [| i ids] eqn:E; simpl.
  - destruct (F Close) eqn:?; simpl; eauto 10.
  - destruct (F ExecutemanyDelete) eqn:?; simpl; [eauto 10 |].
    destruct (F CommitDelete) eqn:?; simpl; [eauto 10 |].
    assert (sql_delete_ids (sql_insert (disk w) uid ch rl ct) (i :: ids) =
            inserted_and_trimmed hl (disk w) uid ch rl ct) as Ht
      by (unfold inserted_and_trimmed; simpl; now rewrite E).
    simpl in Ht. rewrite Ht.
    destruct (F Close) eqn:?; simpl; eauto 10.
Qed.

Lemma rows_inserted_and_trimmed (hl : nat) (t : table) (uid : Z) (ch rl ct : string) :
  rows (inserted_and_trimmed hl t uid ch rl ct) =
  filter (keeps (sql_select_old_ids (sql_insert t uid ch rl ct) uid ch (hl * 2)))
         (rows (sql_insert t uid ch rl ct)).
Proof.
  unfold inserted_and_trimmed. simpl. apply rows_sql_delete_ids.
Qed.

(** The trim leaves a key at most [n] rows, on any table. *)
Lemma trim_count_le (n : nat) (t : table) (uid : Z) (ch : string) :
  (count_key uid ch (sql_delete_ids t (sql_select_old_ids t uid ch n)) <= n)%nat.
Proof.
  unfold count_key, turns_of. rewrite rows_sql_delete_ids.
  rewrite filter_comm.
  set (S := order_by_id_desc (filter (where_key uid ch) (rows t))).
  assert (Hp : Permutation (filter (where_key uid ch) (rows t)) S)
    by (symmetry; apply order_by_id_desc_perm).
  rewrite (Permutation_length (Permutation_filter _ _ _ Hp)).
  unfold sql_select_old_ids. fold S.
  rewrite <- (firstn_skipn n S) at 2. rewrite filter_app, length_app.
  rewrite (filter_none _ (skipn n S)).
  - simpl. rewrite Nat.add_0_r.
    etransitivity; [apply filter_length_le | apply firstn_le_length].
  - intros r Hr. apply keeps_false_iff. now apply in_map.
Qed.

(** ** The primary key *)

Lemma max_id_ge (l : list row) (r : row) : In r l -> id r <= max_id l.
Proof.
  induction l as [| x l IH]; simpl; [contradiction |].
  intros [<- | H]; [lia |]. specialize (IH H). lia.
Qed.

Lemma next_id_fresh (t : table) : ~ In (next_id t) (map id (rows t)).
Proof.
  rewrite in_map_iff. intros (r & E & H).
  apply max_id_ge in H. unfold next_id in E. lia.
Qed.

Lemma table_ok_empty : table_ok empty_table.
Proof. constructor. Qed.

Lemma table_ok_insert (t : table) (uid : Z) (ch rl ct : string) :
  table_ok t -> table_ok (sql_insert t uid ch rl ct).
Proof.
  unfold table_ok. simpl. intros H. rewrite map_app. simpl.
  apply NoDup_app; repeat split; auto.
  - repeat constructor. intros [].
  - intros a Ha [<- | []]. now apply next_id_fresh in Ha.
Qed.

Lemma NoDup_map_filter (f : row -> bool) (l : list row) :
  NoDup (map id l) -> NoDup (map id (filter f l)).
Proof.
  induction l as [| x l IH]; simpl; intros H; auto.
  inversion H as [| ? ? Hx Hl]; subst.
  destruct (f x); simpl; auto.
  constructor; auto. rewrite in_map_iff in *.
  intros (r & E & Hr). apply Hx. exists r. split; auto.
  apply filter_In in Hr. tauto.
Qed.

Lemma table_ok_trim (hl : nat) (t : table) (uid : Z) (ch rl ct : string) :
  table_ok t -> table_ok (inserted_and_trimmed hl t uid ch rl ct).
Proof.
  intros H. unfold table_ok. rewrite rows_inserted_and_trimmed.
  apply NoDup_map_filter. now apply table_ok_insert.
Qed.

(** Rows of a well-formed table are told apart by their id. *)
Lemma table_ok_id_inj (l : list row) (a b : row) :
  NoDup (map id l) -> In a l -> In b l -> id a = id b -> a = b.
Proof.
  induction l as [| x l IH]; simpl; [contradiction |].
  intros H Ha Hb E. inversion H as [| ? ? Hx Hl]; subst.
  destruct Ha as [<- | Ha], Hb as [<- | Hb]; auto.
  - exfalso. apply Hx. rewrite E. now apply in_map.
  - exfalso. apply Hx. rewrite <- E. now apply in_map.
Qed.

Lemma where_key_same (uid uid' : Z) (ch ch' : string) (r : row) :
  where_key uid ch r = true -> where_key uid' ch' r = true ->
  (uid, ch) = (uid', ch').
Proof.
  unfold where_key. rewrite !andb_true_iff, !Z.eqb_eq, !String.eqb_eq.
  intros [<- <-] [<- <-]. reflexivity.
Qed.

(** ** Frame lemmas for the two statements of [save_message] *)

Lemma turns_of_insert_other (t : table) (uidA uidB : Z) (chA chB rl ct : string) :
  (uidA, chA) <> (uidB, chB) ->
  turns_of uidB chB (sql_insert t uidA chA rl ct) = turns_of uidB chB t.
Proof.
  intros Hne. unfold turns_of. simpl. rewrite filter_app. simpl.
  destruct (where_key uidB chB _) eqn:E; [| apply app_nil_r].
  exfalso. apply Hne. symmetry.
  apply (where_key_same _ _ _ _ (mkRow (next_id t) uidA chA rl ct)); auto.
  unfold where_key. simpl. now rewrite Z.eqb_refl, String.eqb_refl.
Qed.

Lemma turns_of_trim_other (n : nat) (t : table) (uidA uidB : Z) (chA chB : string) :
  table_ok t -> (uidA, chA) <> (uidB, chB) ->
  turns_of uidB chB (sql_delete_ids t (sql_select_old_ids t uidA chA n)) =
  turns_of uidB chB t.
Proof.
  intros Hok Hne. unfold turns_of. rewrite rows_sql_delete_ids, filter_comm.
  apply filter_all. intros r Hr. apply filter_In in Hr. destruct Hr as [Hr Hk].
  apply keeps_true_iff. unfold sql_select_old_ids. rewrite in_map_iff.
  intros (r0 & E & H0). apply In_skipn_In in H0.
  apply (proj1 (order_by_id_desc_In _ _)) in H0.
  apply filter_In in H0. destruct H0 as [H0 Hk0].
  assert (r0 = r) by (eapply table_ok_id_inj; eauto). subst r0.
  apply Hne. eapply where_key_same; eauto.
Qed.

(** ** Ascending and descending order agree on a primary key *)

Lemma insert_asc_perm (r : row) (l : list row) :
  Permutation (insert_asc r l) (r :: l).
Proof.
  induction l as [| x l IH]; simpl; auto.
  destruct (id r <? id x); auto.
  rewrite IH. apply perm_swap.
Qed.

Lemma sort_asc_perm (l : list row) :
  Permutation (fold_right insert_asc [] l) l.
Proof.
  induction l as [| x l IH]; simpl; auto.
  rewrite insert_asc_perm. auto.
Qed.

Lemma insert_asc_sorted (r : row) (l : list row) :
  StronglySorted id_le l -> StronglySorted id_le (insert_asc r l).
Proof.
  induction 1 as [| x l Hs IH Hx]; simpl.
  - repeat constructor.
  - destruct (id r <? id x) eqn:E.
    + apply Z.ltb_lt in E. constructor.
      * constructor; auto.
      * constructor; [unfold id_le; lia |].
        eapply Forall_impl; [| exact Hx]. unfold id_le. intros; lia.
    + apply Z.ltb_ge in E. constructor; auto.
      rewrite Forall_forall. intros y Hy.
      apply (Permutation_in _ (insert_asc_perm r l)) in Hy.
      destruct Hy as [<- | Hy]; [exact E |].
      rewrite Forall_forall in Hx. auto.
Qed.

Lemma sort_asc_sorted (l : list row) :
  StronglySorted id_le (fold_right insert_asc [] l).
Proof.
  induction l as [| x l IH]; simpl.
  - constructor.
  - now apply insert_asc_sorted.
Qed.

Lemma StronglySorted_snoc {A} (R : A -> A -> Prop) (l : list A) (x : A) :
  StronglySorted R l -> Forall (fun a => R a x) l ->
  StronglySorted R (l ++ [x]).
Proof.
  induction 1 as [| y l Hs IH Hy]; simpl; intros Hx.
  - repeat constructor.
  - inversion Hx; subst. constructor; auto.
    apply Forall_app. split; auto.
Qed.

Lemma sorted_desc_rev (l : list row) :
  StronglySorted id_ge l -> StronglySorted id_le (rev l).
Proof.
  induction 1 as [| x l Hs IH Hx]; simpl.
  - constructor.
  - apply StronglySorted_snoc; auto.
    apply Forall_rev. exact Hx.
Qed.

Lemma sorted_le_strict (l : list row) :
  StronglySorted id_le l -> NoDup (map id l) -> StronglySorted id_lt l.
Proof.
  induction 1 as [| x l Hs IH Hx]; simpl; intros Hn.
  - constructor.
  - inversion Hn as [| ? ? Hx' Hl]; subst. constructor; auto.
    rewrite Forall_forall in *. intros y Hy.
    specialize (Hx y Hy). unfold id_le in Hx. unfold id_lt.
    assert (id x <> id y) by (intros E; apply Hx'; rewrite E; now apply in_map).
    lia.
Qed.

(** A strictly sorted list is determined by its elements. *)
Lemma sorted_lt_unique (l1 l2 : list row) :
  StronglySorted id_lt l1 -> StronglySorted id_lt l2 ->
  Permutation l1 l2 -> l1 = l2.
Proof.
  intros H1. revert l2.
  induction H1 as [| a l1 Hs1 IH Ha]; intros l2 H2 Hp.
  - apply Permutation_nil in Hp. now subst.
  - destruct H2 as [| b l2 Hs2 Hb].
    + symmetry in Hp. apply Permutation_nil in Hp. discriminate.
    + assert (a = b) as <-.
      { assert (Hin_a : In a (b :: l2))
          by (eapply Permutation_in; [exact Hp | now left]).
        assert (Hin_b : In b (a :: l1))
          by (eapply Permutation_in; [symmetry; exact Hp | now left]).
        destruct Hin_a as [-> | Hin_a]; auto.
        destruct Hin_b as [-> | Hin_b]; auto.
        rewrite Forall_forall in Ha, Hb.
        specialize (Ha _ Hin_b). specialize (Hb _ Hin_a).
        unfold id_lt in *. lia. }
      f_equal. apply IH; auto. eapply Permutation_cons_inv; eauto.
Qed.

Lemma rev_order_by_id_desc (l : list row) :
  NoDup (map id l) ->
  rev (order_by_id_desc l) = fold_right insert_asc [] l.
Proof.
  intros Hn. apply sorted_lt_unique.
  - apply sorted_le_strict.
    + apply sorted_desc_rev, order_by_id_desc_sorted.
    + apply (Permutation_NoDup (l := map id l)); auto.
      apply Permutation_map. rewrite <- Permutation_rev.
      symmetry. apply order_by_id_desc_perm.
  - apply sorted_le_strict.
    + apply sort_asc_sorted.
    + apply (Permutation_NoDup (l := map id l)); auto.
      apply Permutation_map. symmetry. apply sort_asc_perm.
  - rewrite <- Permutation_rev, order_by_id_desc_perm.
    symmetry. apply sort_asc_perm.
Qed.

Lemma rev_firstn_most_recent {A} (n : nat) (l : list A) :
  rev (firstn n l) = most_recent n (rev l).
Proof.
  unfold most_recent. rewrite length_rev, skipn_rev. f_equal.
  destruct (Nat.le_gt_cases n (List.length l)) as [H | H].
  - f_equal. lia.
  - replace (List.length l - (List.length l - n))%nat with (List.length l) by lia.
    rewrite !firstn_all2; auto; lia.
Qed.

(** ** [get_history] *)

Lemma get_history_no_faults (hl : nat) (uid : Z) (ch : string) (w : world) :
  get_history hl no_faults uid ch w =
  (Returned (system_message :: recent_messages hl (disk w) uid ch), w).
Proof.
  unfold get_history, get_history_body. run_py. reflexivity.
Qed.

(** Whatever the faults, [get_history] returns a list that starts with the
    system prompt, leaves the file alone and prints at most one line. *)
Lemma get_history_cases (hl : nat) (F : faults) (uid : Z) (ch : string) (w : world) :
  exists h out,
    get_history hl F uid ch w = (Returned h, mkWorld (disk w) out) /\
    (h = [system_message] \/
     h = system_message :: recent_messages hl (disk w) uid ch) /\
    (out = stdout w \/ exists e, out = (stdout w ++ [read_error_line e])%list).
Proof.
  destruct w as [d o].
  unfold get_history, get_history_body, read_error_line. run_py.
  destruct (F Connect) eqn:?; simpl; [eauto 8 |].
  destruct (F Cursor) eqn:?; simpl; [eauto 8 |].
  destruct (F ExecuteSelectRecent) eqn:?; simpl; [eauto 8 |].
  destruct (F FetchallRecent) eqn:?; simpl; [eauto 8 |].
  destruct (F Close) eqn:?; simpl; eauto 8.
Qed.

Lemma recent_messages_turns_of (hl : nat) (t : table) (uid : Z) (ch : string) :
  recent_messages hl t uid ch =
  map to_message (rev (firstn (hl * 2) (order_by_id_desc (turns_of uid ch t)))).
Proof.
  unfold recent_messages, sql_select_recent, turns_of.
  now rewrite <- map_rev, map_map.
Qed.

Lemma recent_messages_turns (hl : nat) (t t' : table) (uid : Z) (ch : string) :
  turns_of uid ch t = turns_of uid ch t' ->
  recent_messages hl t uid ch = recent_messages hl t' uid ch.
Proof.
  unfold recent_messages, sql_select_recent, turns_of. now intros ->.
Qed.

Lemma get_history_turns (hl : nat) (F : faults) (uid : Z) (ch : string) (w w' : world) :
  turns_of uid ch (disk w) = turns_of uid ch (disk w') ->
  fst (get_history hl F uid ch w) = fst (get_history hl F uid ch w').
Proof.
  intros E. destruct w as [d o], w' as [d' o']. simpl in E.
  assert (Es : sql_select_recent d uid ch (hl * 2) =
               sql_select_recent d' uid ch (hl * 2))
    by (unfold sql_select_recent; unfold turns_of in E; now rewrite E).
  unfold get_history, get_history_body. run_py.
  destruct (F Connect); simpl; [reflexivity |].
  destruct (F Cursor); simpl; [reflexivity |].
  destruct (F ExecuteSelectRecent); simpl; [reflexivity |].
  destruct (F FetchallRecent); simpl; [reflexivity |].
  rewrite Es. destruct (F Close); reflexivity.
Qed.

Lemma table_ok_turns (uid : Z) (ch : string) (t : table) :
  table_ok t -> NoDup (map id (turns_of uid ch t)).
Proof. apply NoDup_map_filter. Qed.

Lemma recent_messages_spec (hl : nat) (t : table) (uid : Z) (ch : string) :
  table_ok t ->
  recent_messages hl t uid ch = fetch_recent_spec (hl * 2) t uid ch.
Proof.
  intros Hok. unfold recent_messages, sql_select_recent, fetch_recent_spec.
  rewrite <- map_rev, map_map. simpl. fold to_message.
  rewrite rev_firstn_most_recent. unfold chronological.
  rewrite <- rev_order_by_id_desc by now apply table_ok_turns.
  reflexivity.
Qed.

Lemma chronological_length (uid : Z) (ch : string) (t : table) :
  List.length (chronological uid ch t) = count_key uid ch t.
Proof.
  unfold chronological, count_key. apply Permutation_length, sort_asc_perm.
Qed.

(** Distinct ids are an invariant of [save_message], faults or not. *)
Lemma save_message_preserves_table_ok
    (hl : nat) (F : faults) (uid : Z) (ch rl ct : string) (w : world) :
  table_ok (disk w) ->
  table_ok (disk (snd (save_message hl F uid ch rl ct w))).
Proof.
  intros Hok.
  destruct (save_message_cases hl F uid ch rl ct w)
    as (d & out & -> & [-> | [-> | ->]] & _); simpl;
    auto using table_ok_insert, table_ok_trim.
Qed.

(** The insert is committed before the trim starts: a fault on the SELECT
    of the old ids leaves the new row in the file and trims nothing. *)
Lemma save_message_fault_before_trim
    (hl : nat) (F : faults) (uid : Z) (ch rl ct : string) (w : world) (e : py_exn) :
  first_fault F [Connect; Cursor; ExecuteInsert; CommitInsert] = None ->
  F ExecuteSelectOld = Some e ->
  save_message hl F uid ch rl ct w =
    (Returned tt,
     mkWorld (sql_insert (disk w) uid ch rl ct)
             (stdout w ++ [write_error_line e])).
Proof.
  unfold first_fault. simpl.
  unfold save_message, save_message_body, write_error_line. run_py.
  destruct (F Connect); simpl; [discriminate |].
  destruct (F Cursor); simpl; [discriminate |].
  destruct (F ExecuteInsert); simpl; [discriminate |].
  destruct (F CommitInsert); simpl; [discriminate |].
  intros _ ->. reflexivity.
Qed.

(** ** The properties of the conversation store *)

(** C1 as stated fails: a call of [save_message] in which the SELECT of the
    old ids raises, after the INSERT was committed, returns normally and
    leaves a key that was at the bound with one row more than
    [2 * HISTORY_LENGTH]. *)
Lemma save_message_bound_counterexample :
  let F := fault_at ExecuteSelectOld (PyException "disk I/O error") in
  let w := mkWorld (sql_insert (sql_insert empty_table 1 "c" "user" "u1")
                               1 "c" "assistant" "a1") [] in
  (count_key 1 "c" (disk w) <= 2 * 1)%nat /\
  fst (save_message 1 F 1 "c" "user" "u2" w) = Returned tt /\
  count_key 1 "c" (disk (snd (save_message 1 F 1 "c" "user" "u2" w))) = 3%nat /\
  ~ Forall (fun w' => (count_key 1 "c" (disk w') <= 2 * 1)%nat)
           (worlds_after 1 F 1 "c" [("user", "u2")] w).
Proof.
  intros F w. split; [vm_compute; lia |]. split; [reflexivity |].
  split; [reflexivity |].
  intros H. inversion H as [| ? ? Hle _]; subst.
  vm_compute in Hle. lia.
Qed.

(** C1, amended. For every sequence of [save_message] calls on a single
    (user_id, channel_name) key that run without a storage fault, and from
    any table whatever, after each call the number of rows stored for that
    key is at most [2 * HISTORY_LENGTH]. *)
Theorem save_message_bounded_history
    (hl : nat) (uid : Z) (ch : string) (turns : list (string * string)) (w : world) :
  Forall (fun w' => (count_key uid ch (disk w') <= 2 * hl)%nat)
         (worlds_after hl no_faults uid ch turns w).
Proof.
  revert w. induction turns as [| [rl ct] rest IH]; intros w; simpl.
  - constructor.
  - constructor; [| apply IH].
    rewrite save_message_no_faults. simpl.
    unfold inserted_and_trimmed. rewrite Nat.mul_comm. apply trim_count_le.
Qed.

(** C7. The trim of a fault-free [save_message] works on the table with
    the new row in it.  What survives is that table filtered: the rows
    kept are unchanged and in the same order.  And whenever a row of the
    key is deleted, every older row of the key (smaller id) is deleted
    too. *)
Theorem save_message_trims_oldest_first
    (hl : nat) (uid : Z) (ch rl ct : string) (w : world) :
  let t1 := sql_insert (disk w) uid ch rl ct in
  let t' := disk (snd (save_message hl no_faults uid ch rl ct w)) in
  (exists keep : row -> bool, rows t' = filter keep (rows t1)) /\
  (forall r r' : row,
      In r (turns_of uid ch t1) -> In r' (turns_of uid ch t1) ->
      id r' < id r -> ~ In r (rows t') -> ~ In r' (rows t')).
Proof.
  intros t1 t'. subst t'. rewrite save_message_no_faults. simpl.
  rewrite rows_inserted_and_trimmed. fold t1.
  set (old := sql_select_old_ids t1 uid ch (hl * 2)).
  split; [now exists (keeps old) |].
  intros r r' Hr Hr' Hlt Hdel Hsurv.
  apply filter_In in Hsurv. destruct Hsurv as [_ Hkeep'].
  apply keeps_true_iff in Hkeep'.
  assert (Hold : In (id r) old).
  { apply keeps_false_iff. destruct (keeps old r) eqn:K; auto.
    exfalso. apply Hdel. apply filter_In. split; auto.
    unfold turns_of in Hr. apply filter_In in Hr. tauto. }
  unfold old, sql_select_old_ids in Hold, Hkeep'.
  fold (turns_of uid ch t1) in Hold, Hkeep'.
  set (S := order_by_id_desc (turns_of uid ch t1)) in *.
  apply in_map_iff in Hold. destruct Hold as (r0 & E0 & H0).
  assert (HS : In r' S) by now apply order_by_id_desc_In.
  rewrite <- (firstn_skipn (hl * 2) S) in HS.
  apply in_app_or in HS. destruct HS as [Hfirst | Hskip].
  - pose proof (sorted_firstn_skipn _ _ _ _
                  (order_by_id_desc_sorted _) Hfirst H0). lia.
  - apply Hkeep'. now apply in_map.
Qed.

Lemma save_message_trims_oldest_first_witness :
  let w := mkWorld (sql_insert (sql_insert (sql_insert empty_table
                      1 "c" "user" "u1") 1 "c" "assistant" "a1") 1 "c" "user" "u2") [] in
  let t' := disk (snd (save_message 1 no_faults 1 "c" "assistant" "a2" w)) in
  ~ In (mkRow 2 1 "c" "assistant" "a1") (rows t') /\
  ~ In (mkRow 1 1 "c" "user" "u1") (rows t').
Proof.
  intros w t'.
  assert (H2 : ~ In (mkRow 2 1 "c" "assistant" "a1") (rows t'))
    by (vm_compute; intros [H | [H | []]]; discriminate H).
  split; [exact H2 |].
  refine (proj2 (save_message_trims_oldest_first 1 1 "c" "assistant" "a2" w)
            (mkRow 2 1 "c" "assistant" "a1") (mkRow 1 1 "c" "user" "u1")
            _ _ _ H2).
  - vm_compute. tauto.
  - vm_compute. tauto.
  - simpl. lia.
Defined.

(** C8. For distinct keys A and B and a table whose ids are distinct,
    [save_message] on A, with or without storage faults, leaves the rows
    stored under B as they were: same rows, same order, same count; and
    [get_history] for B returns what it returned before. *)
Theorem save_message_frame
    (hl : nat) (F F' : faults) (uidA uidB : Z) (chA chB rl ct : string) (w : world) :
  table_ok (disk w) ->
  (uidA, chA) <> (uidB, chB) ->
  let w' := snd (save_message hl F uidA chA rl ct w) in
  turns_of uidB chB (disk w') = turns_of uidB chB (disk w) /\
  count_key uidB chB (disk w') = count_key uidB chB (disk w) /\
  fst (get_history hl F' uidB chB w') = fst (get_history hl F' uidB chB w).
Proof.
  intros Hok Hne w'.
  assert (Ht : turns_of uidB chB (disk w') = turns_of uidB chB (disk w)).
  { subst w'.
    destruct (save_message_cases hl F uidA chA rl ct w)
      as (d & out & -> & [-> | [-> | ->]] & _); simpl; auto.
    - now apply turns_of_insert_other.
    - unfold inserted_and_trimmed.
      rewrite turns_of_trim_other; auto using table_ok_insert.
      now apply turns_of_insert_other. }
  repeat split; auto.
  - unfold count_key. now rewrite Ht.
  - now apply get_history_turns.
Qed.

Lemma save_message_frame_witness :
  let w := mkWorld (sql_insert empty_table 2 "b" "user" "yo") [] in
  let w' := snd (save_message 1 no_faults 1 "a" "user" "hi" w) in
  table_ok (disk w) /\ (1, "a") <> (2, "b") /\
  turns_of 2 "b" (disk w') = turns_of 2 "b" (disk w) /\
  count_key 2 "b" (disk w') = count_key 2 "b" (disk w) /\
  fst (get_history 1 no_faults 2 "b" w') = fst (get_history 1 no_faults 2 "b" w).
Proof.
  intros w w'.
  assert (Hok : table_ok (disk w)) by apply table_ok_insert, table_ok_empty.
  assert (Hne : (1, "a") <> (2, "b")) by discriminate.
  split; [exact Hok |]. split; [exact Hne |].
  exact (save_message_frame 1 no_faults no_faults 1 2 "a" "b" "user" "hi" w
           Hok Hne).
Defined.

(** C2 as stated fails: [get_history] has no [limit] argument.  With two
    stored turns, the most recent 1 turn is one message, while
    [get_history] returns the system prompt and both turns. *)
Lemma get_history_limit_counterexample :
  let w := mkWorld (sql_insert (sql_insert empty_table 1 "c" "user" "u1")
                               1 "c" "assistant" "a1") [] in
  fetch_recent_spec 1 (disk w) 1 "c" = [mkMessage "assistant" "a1"] /\
  fst (get_history HISTORY_LENGTH_default no_faults 1 "c" w) =
    Returned [system_message; mkMessage "user" "u1"; mkMessage "assistant" "a1"] /\
  fst (get_history HISTORY_LENGTH_default no_faults 1 "c" w) <>
    Returned (fetch_recent_spec 1 (disk w) 1 "c").
Proof.
  intros w. split; [reflexivity |]. split; [reflexivity |].
  rewrite get_history_no_faults. simpl. intros H. inversion H.
Qed.

(** C2, amended. [get_history] takes no limit: on a table with distinct
    ids and without a storage fault it returns the system prompt followed
    by the most recent [2 * HISTORY_LENGTH] turns of the key, oldest first,
    and by all the key's turns when there are no more than that. *)
Theorem get_history_recent_window (hl : nat) (uid : Z) (ch : string) (w : world) :
  table_ok (disk w) ->
  get_history hl no_faults uid ch w =
    (Returned (system_message :: fetch_recent_spec (hl * 2) (disk w) uid ch), w) /\
  ((count_key uid ch (disk w) <= hl * 2)%nat ->
   fetch_recent_spec (hl * 2) (disk w) uid ch =
     map to_message (chronological uid ch (disk w))).
Proof.
  intros Hok. split.
  - rewrite get_history_no_faults. now rewrite recent_messages_spec.
  - intros Hle. unfold fetch_recent_spec, most_recent.
    rewrite chronological_length.
    replace (count_key uid ch (disk w) - hl * 2)%nat with 0%nat by lia.
    reflexivity.
Qed.

Lemma get_history_recent_window_witness :
  let w := mkWorld (sql_insert (sql_insert empty_table 1 "c" "user" "u1")
                               1 "c" "assistant" "a1") [] in
  table_ok (disk w) /\
  get_history 1 no_faults 1 "c" w =
    (Returned (system_message :: fetch_recent_spec 2 (disk w) 1 "c"), w).
Proof.
  intros w.
  assert (Hok : table_ok (disk w))
    by (do 2 apply table_ok_insert; apply table_ok_empty).
  split; [exact Hok |].
  exact (proj1 (get_history_recent_window 1 1 "c" w Hok)).
Defined.

(** C3 as stated fails: the list [get_history] returns after the six
    appends is not [[u2; a2; u3; a3]]: it starts with the system prompt. *)
Lemma six_turns_counterexample :
  let w := six_turns 2 1 "c" "u1" "a1" "u2" "a2" "u3" "a3" in
  fst (get_history 2 no_faults 1 "c" w) =
    Returned [system_message;
              mkMessage "user" "u2"; mkMessage "assistant" "a2";
              mkMessage "user" "u3"; mkMessage "assistant" "a3"] /\
  fst (get_history 2 no_faults 1 "c" w) <>
    Returned [mkMessage "user" "u2"; mkMessage "assistant" "a2";
              mkMessage "user" "u3"; mkMessage "assistant" "a3"].
Proof.
  intros w. split; [reflexivity |].
  rewrite get_history_no_faults. intros H. inversion H.
Qed.

Lemma where_key_own (i uid : Z) (ch rl ct : string) :
  where_key uid ch (mkRow i uid ch rl ct) = true.
Proof.
  unfold where_key. simpl. now rewrite Z.eqb_refl, String.eqb_refl.
Qed.

(** On a table that holds rows of one key only, the insert and the trim
    for that key no longer test the key. *)
Lemma inserted_and_trimmed_own_key
    (hl : nat) (t : table) (uid : Z) (ch rl ct : string) :
  forallb (where_key uid ch) (rows t) = true ->
  inserted_and_trimmed hl t uid ch rl ct =
  let l := (rows t ++ [mkRow (next_id t) uid ch rl ct])%list in
  mkTable (filter (keeps (map id (skipn (hl * 2) (order_by_id_desc l)))) l)
          (next_id t).
Proof.
  intros H. unfold inserted_and_trimmed.
  assert (E : filter (where_key uid ch) (rows (sql_insert t uid ch rl ct)) =
              rows (sql_insert t uid ch rl ct)).
  { apply forallb_filter_id. simpl. rewrite forallb_app, H. simpl.
    now rewrite where_key_own. }
  destruct (sql_delete_ids _ _) as [l' a'] eqn:D.
  pose proof (rows_sql_delete_ids
                (sql_select_old_ids (sql_insert t uid ch rl ct) uid ch (hl * 2))
                (sql_insert t uid ch rl ct)) as Hr.
  pose proof (autoinc_sql_delete_ids
                (sql_select_old_ids (sql_insert t uid ch rl ct) uid ch (hl * 2))
                (sql_insert t uid ch rl ct)) as Ha.
  rewrite D in Hr, Ha. simpl in Hr, Ha. subst l' a'.
  unfold sql_select_old_ids. rewrite E. reflexivity.
Qed.

Ltac own_key := cbn [forallb rows]; rewrite ?where_key_own; reflexivity.

(** Evaluates the innermost insert-and-trim of a chain on one key. *)
Ltac trim_step :=
  match goal with
  | |- context [inserted_and_trimmed ?hl (mkTable ?l ?a) ?uid ?ch ?rl ?ct] =>
      let E := fresh "E" in
      assert (E : inserted_and_trimmed hl (mkTable l a) uid ch rl ct =
                  ltac:(let v := eval vm_compute in
                          (let l' := (l ++ [mkRow (next_id (mkTable l a)) uid ch rl ct])%list in
                           mkTable (filter (keeps (map id (skipn (hl * 2)
                                      (order_by_id_desc l')))) l')
                                   (next_id (mkTable l a))) in
                        exact v))
        by (rewrite inserted_and_trimmed_own_key by own_key;
            vm_compute; reflexivity);
      rewrite E; clear E
  end.

(** C3, amended.  With [HISTORY_LENGTH = 2], after the six appends
    [u1, a1, u2, a2, u3, a3] on one key of the empty store, the rows stored
    for the key are exactly [u2, a2, u3, a3] in that order, and
    [get_history] (which takes no limit) returns the system prompt followed
    by these four turns. *)
Theorem six_turns_keep_last_four (uid : Z) (ch u1 a1 u2 a2 u3 a3 : string) :
  let w := six_turns 2 uid ch u1 a1 u2 a2 u3 a3 in
  map to_message (turns_of uid ch (disk w)) =
    [mkMessage "user" u2; mkMessage "assistant" a2;
     mkMessage "user" u3; mkMessage "assistant" a3] /\
  fst (get_history 2 no_faults uid ch w) =
    Returned [system_message;
              mkMessage "user" u2; mkMessage "assistant" a2;
              mkMessage "user" u3; mkMessage "assistant" a3].
Proof.
  intros w.
  assert (Ew : disk w =
               mkTable [mkRow 3 uid ch "user" u2; mkRow 4 uid ch "assistant" a2;
                        mkRow 5 uid ch "user" u3; mkRow 6 uid ch "assistant" a3] 6).
  { subst w. unfold six_turns. cbv [fold_left fst snd].
    rewrite !save_message_no_faults. cbv [fst snd disk].
    unfold empty_table. repeat trim_step. reflexivity. }
  clearbody w.
  assert (Et : turns_of uid ch (disk w) = rows (disk w)).
  { rewrite Ew. unfold turns_of. apply forallb_filter_id.
    cbn [forallb rows]. rewrite !where_key_own. reflexivity. }
  split.
  - rewrite Et, Ew. reflexivity.
  - rewrite get_history_no_faults. cbv [fst].
    rewrite recent_messages_turns_of, Et, Ew. reflexivity.
Qed.

(** C4 as stated fails: with a fault on the INSERT, [save_message] does
    not raise; it returns [None] and prints the error. *)
Lemma save_message_fault_counterexample :
  let F := fault_at ExecuteInsert (PyException "database is locked") in
  let w := mkWorld empty_table [] in
  F ExecuteInsert = Some (PyException "database is locked") /\
  save_message HISTORY_LENGTH_default F 1 "c" "user" "hi" w =
    (Returned tt,
     mkWorld empty_table ["Błąd zapisu historii AI: database is locked"]) /\
  forall e, fst (save_message HISTORY_LENGTH_default F 1 "c" "user" "hi" w) <> Raised e.
Proof.
  intros F w. split; [reflexivity |]. split; [reflexivity |].
  intros e H. vm_compute in H. discriminate H.
Qed.

(** C4, amended.  A storage fault during [save_message] is caught inside
    it: whatever call of the storage API raises, [save_message] returns
    normally ([None]) to its caller, and the first call that raises has its
    error printed (one line, nothing when no call raises). *)
Theorem save_message_swallows_faults
    (hl : nat) (F : faults) (uid : Z) (ch rl ct : string) (w : world) :
  fst (save_message hl F uid ch rl ct w) = Returned tt /\
  stdout (snd (save_message hl F uid ch rl ct w)) =
    (stdout w ++
     match first_fault F (save_message_calls hl (disk w) uid ch rl ct) with
     | Some e => [write_error_line e]
     | None => []
     end)%list.
Proof.
  unfold save_message, save_message_body, write_error_line,
    first_fault, save_message_calls.
  run_py.
  destruct (F Connect) eqn:?; simpl; [auto |].
  destruct (F Cursor) eqn:?; simpl; [auto |].
  destruct (F ExecuteInsert) eqn:?; simpl; [auto |].
  destruct (F CommitInsert) eqn:?; simpl; [auto |].
  destruct (F ExecuteSelectOld) eqn:?; simpl; [auto |].
  destruct (F FetchallOld) eqn:?; simpl; [auto |].
  destruct (sql_select_old_ids _ uid ch (hl * 2)) as [| i ids]; simpl.
  - destruct (F Close) eqn:?; simpl; rewrite ?app_nil_r; auto.
  - destruct (F ExecutemanyDelete) eqn:?; simpl; [auto |].
    destruct (F CommitDelete) eqn:?; simpl; [auto |].
    destruct (F Close) eqn:?; simpl; rewrite ?app_nil_r; auto.
Qed.

(** C5 as stated fails: with a fault on [connect], what [get_history]
    returns is not an empty history but the system prompt. *)
Lemma get_history_fault_counterexample :
  let F := fault_at Connect (PyException "unable to open database file") in
  let w := mkWorld empty_table [] in
  first_fault F get_history_read_calls =
    Some (PyException "unable to open database file") /\
  fst (get_history HISTORY_LENGTH_default F 1 "c" w) = Returned [system_message] /\
  fst (get_history HISTORY_LENGTH_default F 1 "c" w) <> Returned [].
Proof.
  intros F w. split; [reflexivity |]. split; [reflexivity |].
  intros H. vm_compute in H. discriminate H.
Qed.

(** C5, amended.  A storage fault while [get_history] connects or reads
    (connect, cursor, execute, fetchall) is not propagated: the call
    returns normally, prints the error, leaves the file as it was, and the
    history it returns holds the system prompt and no stored turn. *)
Theorem get_history_degrades
    (hl : nat) (F : faults) (uid : Z) (ch : string) (w : world) (e : py_exn) :
  first_fault F get_history_read_calls = Some e ->
  get_history hl F uid ch w =
    (Returned [system_message],
     mkWorld (disk w) (stdout w ++ [read_error_line e])).
Proof.
  unfold first_fault, get_history_read_calls. simpl.
  unfold get_history, get_history_body, read_error_line. run_py.
  destruct (F Connect); simpl; [now intros [= ->] |].
  destruct (F Cursor); simpl; [now intros [= ->] |].
  destruct (F ExecuteSelectRecent); simpl; [now intros [= ->] |].
  destruct (F FetchallRecent); simpl; [now intros [= ->] |].
  discriminate.
Qed.

Lemma get_history_degrades_witness :
  let F := fault_at FetchallRecent (PyException "disk I/O error") in
  let w := mkWorld (sql_insert empty_table 1 "c" "user" "u1") [] in
  first_fault F get_history_read_calls = Some (PyException "disk I/O error") /\
  get_history HISTORY_LENGTH_default F 1 "c" w =
    (Returned [system_message],
     mkWorld (disk w) (stdout w ++ [read_error_line (PyException "disk I/O error")])).
Proof.
  intros F w.
  assert (H : first_fault F get_history_read_calls =
              Some (PyException "disk I/O error")) by reflexivity.
  split; [exact H |].
  exact (get_history_degrades HISTORY_LENGTH_default F 1 "c" w _ H).
Defined.

(** A fault on the final [close] comes after the loop: the rows are
    already in the list that is returned. *)
Lemma get_history_close_fault
    (hl : nat) (F : faults) (uid : Z) (ch : string) (w : world) (e : py_exn) :
  first_fault F get_history_read_calls = None -> F Close = Some e ->
  get_history hl F uid ch w =
    (Returned (system_message :: recent_messages hl (disk w) uid ch),
     mkWorld (disk w) (stdout w ++ [read_error_line e])).
Proof.
  unfold first_fault, get_history_read_calls. simpl.
  unfold get_history, get_history_body, read_error_line. run_py.
  destruct (F Connect); simpl; [discriminate |].
  destruct (F Cursor); simpl; [discriminate |].
  destruct (F ExecuteSelectRecent); simpl; [discriminate |].
  destruct (F FetchallRecent); simpl; [discriminate |].
  intros _ ->. reflexivity.
Qed.

(** C6 as stated fails: on a key without stored turns the list that
    [get_history] returns is not empty, it holds the system prompt. *)
Lemma get_history_empty_counterexample :
  let w := mkWorld empty_table [] in
  count_key 1 "c" (disk w) = 0%nat /\
  fst (get_history HISTORY_LENGTH_default no_faults 1 "c" w) = Returned [system_message] /\
  fst (get_history HISTORY_LENGTH_default no_faults 1 "c" w) <> Returned [].
Proof.
  intros w. split; [reflexivity |]. split; [reflexivity |].
  intros H. vm_compute in H. discriminate H.
Qed.

(** C6, amended.  On a key with zero stored turns, [get_history] does not
    fail: it returns the history that holds only the system prompt, no
    stored turn, and changes nothing. *)
Theorem get_history_no_turns (hl : nat) (uid : Z) (ch : string) (w : world) :
  count_key uid ch (disk w) = 0%nat ->
  get_history hl no_faults uid ch w = (Returned [system_message], w).
Proof.
  intros H. rewrite get_history_no_faults, recent_messages_turns_of.
  unfold count_key in H. apply length_zero_iff_nil in H. rewrite H.
  simpl. now rewrite firstn_nil.
Qed.

Lemma get_history_no_turns_witness :
  let w := mkWorld (sql_insert empty_table 2 "b" "user" "yo") [] in
  count_key 1 "c" (disk w) = 0%nat /\
  get_history HISTORY_LENGTH_default no_faults 1 "c" w = (Returned [system_message], w).
Proof.
  intros w.
  assert (H : count_key 1 "c" (disk w) = 0%nat) by reflexivity.
  split; [exact H |].
  exact (get_history_no_turns HISTORY_LENGTH_default 1 "c" w H).
Defined.

(** C9.  [get_history] does not change the stored table, and a second call
    with the same key right after the first (same storage behaviour, no
    [save_message] in between) returns the same list. *)
Theorem get_history_idempotent
    (hl : nat) (F : faults) (uid : Z) (ch : string) (w : world) :
  let r1 := get_history hl F uid ch w in
  let r2 := get_history hl F uid ch (snd r1) in
  fst r2 = fst r1 /\ disk (snd r1) = disk w /\ disk (snd r2) = disk w.
Proof.
  intros r1 r2.
  assert (H1 : disk (snd r1) = disk w).
  { subst r1. destruct (get_history_cases hl F uid ch w) as (h & out & -> & _).
    reflexivity. }
  assert (H2 : disk (snd r2) = disk (snd r1)).
  { subst r2.
    destruct (get_history_cases hl F uid ch (snd r1)) as (h & out & -> & _).
    reflexivity. }
  split; [| split]; [| exact H1 | congruence].
  subst r2. apply get_history_turns. now rewrite H1.
Qed.

(** ** [remove_giftcode] *)

Section RemoveGiftcode.

Import GiftOps.

Context {gift_code_row user_giftcode_row : Type}.
Variable gc_giftcode : gift_code_row -> string.
Variable ug_giftcode : user_giftcode_row -> string.
Variable remote : http_request -> outcome http_response.
Variable json_loads : string -> outcome json.
Variable db_fault : gift_db_call -> option py_exn.

(** C10.  For every gift code, every remote endpoint, parser and storage
    behaviour and every state, [remove_giftcode(giftcode, False)] returns
    [False] and leaves the state as it was: [gift_codes] and
    [user_giftcodes] are unchanged (in the connection and in the file), no
    request is sent and nothing is printed. *)
Theorem remove_giftcode_without_validation (giftcode : string)
    (s : @api_state gift_code_row user_giftcode_row) :
  remove_giftcode gc_giftcode ug_giftcode remote json_loads db_fault
    giftcode false s = (Returned false, s).
Proof. reflexivity. Qed.

(** With [from_validation=True], a 200 answer whose JSON object has the key
    [success] and a working storage, the code is deleted from both tables,
    the deletion is committed and one DELETE request has been sent. *)
Lemma remove_giftcode_validated (giftcode body : string) (fields : list (string * json))
    (s : @api_state gift_code_row user_giftcode_row) :
  let rq := mkRequest "DELETE" (api_url s) [("code", giftcode)]
              [("Content-Type", "application/json"); ("X-API-Key", api_key s)] in
  remote rq = Returned (mkResponse 200 body) ->
  body <> "" ->
  json_loads body = Returned (JObject fields) ->
  existsb (fun kv => (fst kv =? "success")%string) fields = true ->
  (forall c, db_fault c = None) ->
  let after :=
    mkGiftDb
      (filter (fun r => negb (gc_giftcode r =? giftcode)%string) (gift_codes (conn s)))
      (filter (fun r => negb (ug_giftcode r =? giftcode)%string) (user_giftcodes (conn s))) in
  remove_giftcode gc_giftcode ug_giftcode remote json_loads db_fault
    giftcode true s =
  (Returned true,
   mkApi (api_url s) (api_key s) after after (sent s ++ [rq]) (terminal s)).
Proof.
  intros rq Hr Hb Hj Hs Hdb after.
  unfold remove_giftcode, session_delete, delete_gift_code, delete_user_giftcode,
    gift_commit, gift_db_step, lift, try_except, bind, get, modify, ret.
  simpl. fold rq. rewrite Hr. simpl.
  apply String.eqb_neq in Hb. rewrite Hb. rewrite Hj. simpl. rewrite Hs.
  rewrite !Hdb. reflexivity.
Qed.

End RemoveGiftcode.

(** ** The store as a sliding window *)

Section WindowFacts.

Context {A : Type}.

Lemma most_recent_length (n : nat) (l : list A) :
  List.length (most_recent n l) = Nat.min (List.length l) n.
Proof. unfold most_recent. rewrite length_skipn. lia. Qed.

Lemma most_recent_all (n : nat) (l : list A) :
  (List.length l <= n)%nat -> most_recent n l = l.
Proof.
  intros H. unfold most_recent.
  replace (List.length l - n)%nat with 0%nat by lia. reflexivity.
Qed.

(** Keeping the last [n] after each step is keeping the last [n] once. *)
Lemma most_recent_app (n : nat) (l l' : list A) :
  most_recent n (most_recent n l ++ l') = most_recent n (l ++ l').
Proof.
  unfold most_recent. rewrite !length_app, length_skipn.
  set (k := (List.length l - n)%nat).
  assert (E : (l ++ l' = firstn k l ++ (skipn k l ++ l'))%list)
    by (now rewrite app_assoc, firstn_skipn).
  assert (Hk : List.length (firstn k l) = k)
    by (rewrite length_firstn; unfold k; lia).
  rewrite E. rewrite (skipn_app _ (firstn k l)), Hk.
  assert (E0 : skipn (List.length l + List.length l' - n) (firstn k l) = [])
    by (apply skipn_all2; rewrite Hk; unfold k; lia).
  rewrite E0.
  simpl. f_equal. unfold k. lia.
Qed.

Lemma most_recent_snoc_last (n : nat) (l : list A) (x d : A) :
  (0 < n)%nat -> last (most_recent n (l ++ [x])) d = x.
Proof.
  intros Hn. unfold most_recent. rewrite length_app. simpl.
  rewrite skipn_app.
  replace (List.length l + 1 - n - List.length l)%nat with 0%nat by lia.
  simpl. apply last_last.
Qed.

End WindowFacts.

Lemma most_recent_map {A B} (f : A -> B) (n : nat) (l : list A) :
  most_recent n (map f l) = map f (most_recent n l).
Proof. unfold most_recent. now rewrite length_map, skipn_map. Qed.

Lemma StronglySorted_skipn {A} (R : A -> A -> Prop) (n : nat) (l : list A) :
  StronglySorted R l -> StronglySorted R (skipn n l).
Proof.
  revert l. induction n as [| n IH]; intros l H; simpl; auto.
  destruct l as [| x l]; auto. inversion H; subst. auto.
Qed.

Lemma NoDup_ids_app (l1 l2 : list row) (a b : row) :
  NoDup (map id (l1 ++ l2)) -> In a l1 -> In b l2 -> id a <> id b.
Proof.
  induction l1 as [| x l1 IH]; simpl; [contradiction |].
  intros H Ha Hb. inversion H as [| ? ? Hx Hl]; subst.
  destruct Ha as [<- | Ha]; auto.
  intros E. apply Hx. rewrite E, map_app. apply in_or_app. right.
  now apply in_map.
Qed.

Lemma chronological_perm (uid : Z) (ch : string) (t : table) :
  Permutation (chronological uid ch t) (turns_of uid ch t).
Proof. apply sort_asc_perm. Qed.

Lemma NoDup_ids_perm (l l' : list row) :
  Permutation l l' -> NoDup (map id l) -> NoDup (map id l').
Proof.
  intros Hp. apply Permutation_NoDup. now apply Permutation_map.
Qed.

Lemma chronological_NoDup (uid : Z) (ch : string) (t : table) :
  table_ok t -> NoDup (map id (chronological uid ch t)).
Proof.
  intros Hok. apply (NoDup_ids_perm (turns_of uid ch t)).
  - symmetry. apply chronological_perm.
  - now apply table_ok_turns.
Qed.

Lemma chronological_sorted (uid : Z) (ch : string) (t : table) :
  table_ok t -> StronglySorted id_lt (chronological uid ch t).
Proof.
  intros Hok. apply sorted_le_strict.
  - apply sort_asc_sorted.
  - now apply chronological_NoDup.
Qed.

Lemma turns_of_insert_same (t : table) (uid : Z) (ch rl ct : string) :
  turns_of uid ch (sql_insert t uid ch rl ct) =
  (turns_of uid ch t ++ [new_row t uid ch rl ct])%list.
Proof.
  unfold turns_of, new_row. simpl. rewrite filter_app. simpl.
  now rewrite where_key_own.
Qed.

(** The new row is the most recent of its key. *)
Lemma chronological_insert (t : table) (uid : Z) (ch rl ct : string) :
  table_ok t ->
  chronological uid ch (sql_insert t uid ch rl ct) =
  (chronological uid ch t ++ [new_row t uid ch rl ct])%list.
Proof.
  intros Hok. apply sorted_lt_unique.
  - apply chronological_sorted. now apply table_ok_insert.
  - apply StronglySorted_snoc.
    + now apply chronological_sorted.
    + rewrite Forall_forall. intros r Hr.
      apply (Permutation_in _ (chronological_perm uid ch t)) in Hr.
      unfold turns_of in Hr. apply filter_In in Hr. destruct Hr as [Hr _].
      apply max_id_ge in Hr. unfold id_lt, new_row, next_id. simpl. lia.
  - rewrite chronological_perm, turns_of_insert_same.
    apply Permutation_app_tail. symmetry. apply chronological_perm.
Qed.

Lemma order_by_id_desc_chronological (uid : Z) (ch : string) (t : table) :
  table_ok t ->
  order_by_id_desc (turns_of uid ch t) = rev (chronological uid ch t).
Proof.
  intros Hok. unfold chronological.
  rewrite <- rev_order_by_id_desc by now apply table_ok_turns.
  now rewrite rev_involutive.
Qed.

(** The trim keeps the most recent [n] rows of the key. *)
Lemma chronological_trim (n : nat) (t : table) (uid : Z) (ch : string) :
  table_ok t ->
  chronological uid ch (sql_delete_ids t (sql_select_old_ids t uid ch n)) =
  most_recent n (chronological uid ch t).
Proof.
  intros Hok.
  set (C := chronological uid ch t).
  set (k := (List.length C - n)%nat).
  assert (Hold : sql_select_old_ids t uid ch n = map id (rev (firstn k C))).
  { unfold sql_select_old_ids. fold (turns_of uid ch t).
    rewrite order_by_id_desc_chronological by assumption.
    fold C. now rewrite skipn_rev. }
  set (old := sql_select_old_ids t uid ch n) in *.
  assert (Hturns : turns_of uid ch (sql_delete_ids t old) =
                   filter (keeps old) (turns_of uid ch t)).
  { unfold turns_of. rewrite rows_sql_delete_ids. apply filter_comm. }
  assert (Hnd : NoDup (map id C)) by now apply chronological_NoDup.
  assert (Hkeep : filter (keeps old) C = skipn k C).
  { rewrite <- (firstn_skipn k C) at 1. rewrite filter_app.
    rewrite filter_none, filter_all; auto.
    - intros r Hr. apply keeps_true_iff. rewrite Hold, in_map_iff.
      intros (r0 & E & H0). apply in_rev in H0.
      rewrite <- (firstn_skipn k C) in Hnd.
      now apply (NoDup_ids_app _ _ r0 r Hnd H0 Hr).
    - intros r Hr. apply keeps_false_iff. rewrite Hold.
      apply in_map. now apply in_rev in Hr. }
  unfold most_recent. fold k. apply sorted_lt_unique.
  - apply sorted_le_strict; [apply sort_asc_sorted |].
    apply (NoDup_ids_perm (turns_of uid ch (sql_delete_ids t old))).
    + symmetry. apply chronological_perm.
    + rewrite Hturns. apply NoDup_map_filter. now apply table_ok_turns.
  - apply StronglySorted_skipn. now apply chronological_sorted.
  - rewrite chronological_perm, Hturns, <- Hkeep.
    apply Permutation_filter. symmetry. apply chronological_perm.
Qed.

Lemma chronological_inserted_and_trimmed
    (hl : nat) (t : table) (uid : Z) (ch rl ct : string) :
  table_ok t ->
  chronological uid ch (inserted_and_trimmed hl t uid ch rl ct) =
  most_recent (hl * 2) (chronological uid ch t ++ [new_row t uid ch rl ct]).
Proof.
  intros Hok. unfold inserted_and_trimmed.
  rewrite chronological_trim by now apply table_ok_insert.
  now rewrite chronological_insert.
Qed.

Lemma save_all_table_ok (hl : nat) (uid : Z) (ch : string)
    (turns : list (string * string)) (w : world) :
  table_ok (disk w) -> table_ok (disk (save_all hl no_faults uid ch turns w)).
Proof.
  revert w. induction turns as [| [rl ct] rest IH]; intros w Hok; simpl; auto.
  apply IH. now apply save_message_preserves_table_ok.
Qed.

(** ** Further properties of the conversation store *)

(** X1.  On a table with distinct ids, a fault-free [save_message] makes
    the new row the most recent turn of its key and keeps, of the key's
    turns in id order, exactly the last [2 * HISTORY_LENGTH]. *)
Theorem save_message_slides_window
    (hl : nat) (uid : Z) (ch rl ct : string) (w : world) :
  table_ok (disk w) ->
  chronological uid ch (disk (snd (save_message hl no_faults uid ch rl ct w))) =
  most_recent (hl * 2)
    (chronological uid ch (disk w) ++ [new_row (disk w) uid ch rl ct]).
Proof.
  intros Hok. rewrite save_message_no_faults. simpl.
  now apply chronological_inserted_and_trimmed.
Qed.

Lemma save_message_slides_window_witness :
  let w := mkWorld (sql_insert (sql_insert empty_table 1 "c" "user" "u1")
                               1 "c" "assistant" "a1") [] in
  table_ok (disk w) /\
  chronological 1 "c" (disk (snd (save_message 1 no_faults 1 "c" "user" "u2" w))) =
  most_recent 2 (chronological 1 "c" (disk w) ++ [new_row (disk w) 1 "c" "user" "u2"]).
Proof.
  intros w.
  assert (Hok : table_ok (disk w))
    by (do 2 apply table_ok_insert; apply table_ok_empty).
  split; [exact Hok |].
  exact (save_message_slides_window 1 1 "c" "user" "u2" w Hok).
Defined.

(** X2.  On a table with distinct ids, a fault-free [save_message] leaves
    the key with [min (count + 1) (2 * HISTORY_LENGTH)] rows: one more
    below the window, exactly the window otherwise. *)
Theorem save_message_count
    (hl : nat) (uid : Z) (ch rl ct : string) (w : world) :
  table_ok (disk w) ->
  count_key uid ch (disk (snd (save_message hl no_faults uid ch rl ct w))) =
  Nat.min (count_key uid ch (disk w) + 1) (2 * hl).
Proof.
  intros Hok. rewrite <- !chronological_length.
  rewrite save_message_slides_window by assumption.
  rewrite most_recent_length, length_app. simpl. lia.
Qed.

Lemma save_message_count_witness :
  let w := mkWorld (sql_insert (sql_insert empty_table 1 "c" "user" "u1")
                               1 "c" "assistant" "a1") [] in
  table_ok (disk w) /\
  count_key 1 "c" (disk (snd (save_message 1 no_faults 1 "c" "user" "u2" w))) =
  Nat.min (count_key 1 "c" (disk w) + 1) (2 * 1).
Proof.
  intros w.
  assert (Hok : table_ok (disk w))
    by (do 2 apply table_ok_insert; apply table_ok_empty).
  split; [exact Hok |].
  exact (save_message_count 1 1 "c" "user" "u2" w Hok).
Defined.

Lemma stored_messages_after_save
    (hl : nat) (uid : Z) (ch rl ct : string) (w : world) :
  table_ok (disk w) ->
  map to_message
      (chronological uid ch (disk (snd (save_message hl no_faults uid ch rl ct w)))) =
  most_recent (hl * 2)
    (map to_message (chronological uid ch (disk w)) ++ [mkMessage rl ct]).
Proof.
  intros Hok. rewrite save_message_no_faults. simpl.
  rewrite chronological_inserted_and_trimmed by assumption.
  rewrite <- most_recent_map, map_app. reflexivity.
Qed.

Lemma recent_after_save_all (hl : nat) (uid : Z) (ch : string)
    (turns : list (string * string)) (w : world) :
  table_ok (disk w) ->
  most_recent (hl * 2)
    (map to_message (chronological uid ch (disk (save_all hl no_faults uid ch turns w)))) =
  most_recent (hl * 2)
    (map to_message (chronological uid ch (disk w)) ++ map turn_message turns).
Proof.
  revert w. induction turns as [| [rl ct] rest IH]; intros w Hok; simpl.
  - now rewrite app_nil_r.
  - rewrite IH by now apply save_message_preserves_table_ok.
    rewrite stored_messages_after_save by assumption.
    rewrite most_recent_app, <- app_assoc. reflexivity.
Qed.

(** X3.  From a table with distinct ids, after any run of fault-free
    [save_message] calls on one key, [get_history] returns the system
    prompt followed by the last [2 * HISTORY_LENGTH] messages of what was
    stored before followed by the turns saved, in the order of the calls. *)
Theorem get_history_after_saves (hl : nat) (uid : Z) (ch : string)
    (turns : list (string * string)) (w : world) :
  table_ok (disk w) ->
  fst (get_history hl no_faults uid ch (save_all hl no_faults uid ch turns w)) =
  Returned (system_message ::
            most_recent (hl * 2)
              (map to_message (chronological uid ch (disk w))
               ++ map turn_message turns)).
Proof.
  intros Hok. rewrite get_history_no_faults. simpl.
  rewrite recent_messages_spec by now apply save_all_table_ok.
  unfold fetch_recent_spec. rewrite <- most_recent_map.
  now rewrite recent_after_save_all.
Qed.

Lemma get_history_after_saves_witness :
  let w := mkWorld (sql_insert empty_table 1 "c" "user" "u1") [] in
  let turns := [("assistant", "a1"); ("user", "u2")] in
  table_ok (disk w) /\
  fst (get_history 1 no_faults 1 "c" (save_all 1 no_faults 1 "c" turns w)) =
  Returned (system_message ::
            most_recent 2 (map to_message (chronological 1 "c" (disk w))
                           ++ map turn_message turns)).
Proof.
  intros w turns.
  assert (Hok : table_ok (disk w)) by apply table_ok_insert, table_ok_empty.
  split; [exact Hok |].
  exact (get_history_after_saves 1 1 "c" turns w Hok).
Defined.

(** X4.  Round trip: with [HISTORY_LENGTH > 0] and distinct ids, the turn
    a fault-free [save_message] stores is the last message of the history
    that [get_history] returns next for the key. *)
Theorem save_then_get_history_last
    (hl : nat) (uid : Z) (ch rl ct : string) (w : world) :
  (0 < hl)%nat -> table_ok (disk w) ->
  exists h,
    fst (get_history hl no_faults uid ch
           (snd (save_message hl no_faults uid ch rl ct w))) = Returned h /\
    last h system_message = mkMessage rl ct.
Proof.
  intros Hhl Hok.
  pose proof (get_history_after_saves hl uid ch [(rl, ct)] w Hok) as H.
  unfold save_all in H. cbn [fold_left fst snd map turn_message] in H.
  set (l := map to_message (chronological uid ch (disk w))) in *.
  exists (system_message :: most_recent (hl * 2) (l ++ [mkMessage rl ct])).
  split; [exact H |].
  assert (Hl : last (most_recent (hl * 2) (l ++ [mkMessage rl ct])) system_message
               = mkMessage rl ct) by (apply most_recent_snoc_last; lia).
  destruct (most_recent (hl * 2) (l ++ [mkMessage rl ct])) as [| m ms] eqn:E.
  - pose proof (most_recent_length (hl * 2) (l ++ [mkMessage rl ct])) as Hlen.
    rewrite E, length_app in Hlen. simpl in Hlen. lia.
  - exact Hl.
Qed.

Lemma save_then_get_history_last_witness :
  let w := mkWorld (sql_insert empty_table 1 "c" "user" "u1") [] in
  (0 < 1)%nat /\ table_ok (disk w) /\
  exists h,
    fst (get_history 1 no_faults 1 "c"
           (snd (save_message 1 no_faults 1 "c" "assistant" "a1" w))) = Returned h /\
    last h system_message = mkMessage "assistant" "a1".
Proof.
  intros w.
  assert (Hhl : (0 < 1)%nat) by lia.
  assert (Hok : table_ok (disk w)) by apply table_ok_insert, table_ok_empty.
  split; [exact Hhl |]. split; [exact Hok |].
  exact (save_then_get_history_last 1 1 "c" "assistant" "a1" w Hhl Hok).
Defined.

Lemma key_eq_dec (uidA uidB : Z) (chA chB : string) :
  {(uidA, chA) = (uidB, chB)} + {(uidA, chA) <> (uidB, chB)}.
Proof.
  destruct (Z.eq_dec uidA uidB) as [-> | Hu];
    [destruct (string_dec chA chB) as [-> | Hc] |]; auto;
    right; intros [= ]; contradiction.
Qed.

Lemma save_message_keeps_bounded
    (hl : nat) (uid : Z) (ch rl ct : string) (w : world) :
  table_ok (disk w) -> all_bounded hl (disk w) ->
  all_bounded hl (disk (snd (save_message hl no_faults uid ch rl ct w))).
Proof.
  intros Hok Hb uidB chB.
  destruct (key_eq_dec uid uidB ch chB) as [[= <- <-] | Hne].
  - rewrite save_message_no_faults. simpl. unfold inserted_and_trimmed.
    rewrite Nat.mul_comm. apply trim_count_le.
  - rewrite save_message_no_faults. simpl. unfold count_key, inserted_and_trimmed.
    rewrite turns_of_trim_other by auto using table_ok_insert.
    rewrite turns_of_insert_other by assumption. apply Hb.
Qed.

(** X5.  The retention bound is an invariant of the whole table: from a
    table with distinct ids in which every key holds at most
    [2 * HISTORY_LENGTH] rows, any run of fault-free [save_message] calls,
    on any keys in any order, leaves every key within that bound. *)
Theorem save_calls_keep_all_bounded
    (hl : nat) (calls : list append_call) (w : world) :
  table_ok (disk w) -> all_bounded hl (disk w) ->
  all_bounded hl (disk (save_calls hl no_faults calls w)).
Proof.
  revert w. induction calls as [| c rest IH]; intros w Hok Hb; simpl; auto.
  apply IH.
  - now apply save_message_preserves_table_ok.
  - now apply save_message_keeps_bounded.
Qed.

Lemma save_calls_keep_all_bounded_witness :
  let w := mkWorld empty_table [] in
  let calls := [mkAppend 1 "a" "user" "x"; mkAppend 2 "b" "user" "y";
                mkAppend 1 "a" "assistant" "z"] in
  table_ok (disk w) /\ all_bounded 1 (disk w) /\
  all_bounded 1 (disk (save_calls 1 no_faults calls w)).
Proof.
  intros w calls.
  assert (Hok : table_ok (disk w)) by apply table_ok_empty.
  assert (Hb : all_bounded 1 (disk w))
    by (intros uid ch; unfold count_key, turns_of; simpl; lia).
  split; [exact Hok |]. split; [exact Hb |].
  exact (save_calls_keep_all_bounded 1 calls w Hok Hb).
Defined.

(** X6.  A storage fault up to and including the commit of the INSERT
    (connect, cursor, execute, commit) leaves the table on disk exactly as
    it was: the turn is lost, the error is printed and [save_message]
    returns normally. *)
Theorem save_message_fault_before_commit
    (hl : nat) (F : faults) (uid : Z) (ch rl ct : string) (w : world) (e : py_exn) :
  first_fault F save_message_insert_calls = Some e ->
  save_message hl F uid ch rl ct w =
    (Returned tt, mkWorld (disk w) (stdout w ++ [write_error_line e])).
Proof.
  unfold first_fault, save_message_insert_calls. simpl.
  unfold save_message, save_message_body, write_error_line. run_py.
  destruct (F Connect); simpl; [now intros [= ->] |].
  destruct (F Cursor); simpl; [now intros [= ->] |].
  destruct (F ExecuteInsert); simpl; [now intros [= ->] |].
  destruct (F CommitInsert); simpl; [now intros [= ->] |].
  discriminate.
Qed.

Lemma save_message_fault_before_commit_witness :
  let F := fault_at CommitInsert (PyException "database is locked") in
  let w := mkWorld (sql_insert empty_table 1 "c" "user" "u1") [] in
  first_fault F save_message_insert_calls = Some (PyException "database is locked") /\
  save_message 1 F 1 "c" "assistant" "a1" w =
    (Returned tt,
     mkWorld (disk w)
             (stdout w ++ [write_error_line (PyException "database is locked")])).
Proof.
  intros F w.
  assert (H : first_fault F save_message_insert_calls =
              Some (PyException "database is locked")) by reflexivity.
  split; [exact H |].
  exact (save_message_fault_before_commit 1 F 1 "c" "assistant" "a1" w _ H).
Defined.

(** X7.  The insert and the trim are two transactions: when the insert is
    committed and a call of the trim then raises (the SELECT of the old
    ids, its fetch, or, when there are rows to delete, the DELETE or its
    commit), the new row stays on disk and nothing is deleted, so the key
    is left with one row more than before. *)
Theorem save_message_fault_in_trim
    (hl : nat) (F : faults) (uid : Z) (ch rl ct : string) (w : world) (e : py_exn) :
  first_fault F save_message_insert_calls = None ->
  first_fault F (save_message_trim_calls hl (disk w) uid ch rl ct) = Some e ->
  save_message hl F uid ch rl ct w =
    (Returned tt,
     mkWorld (sql_insert (disk w) uid ch rl ct)
             (stdout w ++ [write_error_line e])) /\
  count_key uid ch (disk (snd (save_message hl F uid ch rl ct w))) =
    S (count_key uid ch (disk w)).
Proof.
  intros H1 H2.
  assert (E : save_message hl F uid ch rl ct w =
              (Returned tt,
               mkWorld (sql_insert (disk w) uid ch rl ct)
                       (stdout w ++ [write_error_line e]))).
  { revert H1 H2.
    unfold first_fault, save_message_insert_calls, save_message_trim_calls. simpl.
    unfold save_message, save_message_body, write_error_line. run_py.
    destruct (F Connect); simpl; [discriminate |].
    destruct (F Cursor); simpl; [discriminate |].
    destruct (F ExecuteInsert); simpl; [discriminate |].
    destruct (F CommitInsert); simpl; [discriminate |].
    intros _.
    destruct (F ExecuteSelectOld); simpl; [now intros [= ->] |].
    destruct (F FetchallOld); simpl; [now intros [= ->] |].
    destruct (sql_select_old_ids _ uid ch (hl * 2)) as [| i ids]; simpl;
      [discriminate |].
    destruct (F ExecutemanyDelete); simpl; [now intros [= ->] |].
    destruct (F CommitDelete); simpl; [now intros [= ->] |].
    discriminate. }
  split; [exact E |].
  rewrite E. simpl. unfold count_key.
  rewrite turns_of_insert_same, length_app. simpl. lia.
Qed.

Lemma save_message_fault_in_trim_witness :
  let F := fault_at ExecutemanyDelete (PyException "disk I/O error") in
  let w := mkWorld (sql_insert (sql_insert empty_table 1 "c" "user" "u1")
                               1 "c" "assistant" "a1") [] in
  first_fault F save_message_insert_calls = None /\
  first_fault F (save_message_trim_calls 1 (disk w) 1 "c" "user" "u2") =
    Some (PyException "disk I/O error") /\
  count_key 1 "c" (disk (snd (save_message 1 F 1 "c" "user" "u2" w))) = 3%nat.
Proof.
  intros F w.
  assert (H1 : first_fault F save_message_insert_calls = None) by reflexivity.
  assert (H2 : first_fault F (save_message_trim_calls 1 (disk w) 1 "c" "user" "u2") =
               Some (PyException "disk I/O error")) by reflexivity.
  split; [exact H1 |]. split; [exact H2 |].
  exact (proj2 (save_message_fault_in_trim 1 F 1 "c" "user" "u2" w _ H1 H2)).
Defined.

(** X8.  Distinct ids are kept: whatever storage faults occur,
    [save_message] turns a table whose ids are pairwise distinct into one
    whose ids are pairwise distinct. *)
Theorem save_message_keeps_ids_distinct
    (hl : nat) (F : faults) (uid : Z) (ch rl ct : string) (w : world) :
  table_ok (disk w) ->
  table_ok (disk (snd (save_message hl F uid ch rl ct w))).
Proof. apply save_message_preserves_table_ok. Qed.

Lemma save_message_keeps_ids_distinct_witness :
  let w := mkWorld (sql_insert empty_table 1 "c" "user" "u1") [] in
  let F := fault_at Close (PyException "closed") in
  table_ok (disk w) /\
  table_ok (disk (snd (save_message 1 F 1 "c" "assistant" "a1" w))).
Proof.
  intros w F.
  assert (Hok : table_ok (disk w)) by apply table_ok_insert, table_ok_empty.
  split; [exact Hok |].
  exact (save_message_keeps_ids_distinct 1 F 1 "c" "assistant" "a1" w Hok).
Defined.

(** X9.  Whatever the table and the storage faults, [get_history] returns
    a list that starts with the system prompt, holds at most
    [2 * HISTORY_LENGTH] further messages, and each of these is the role
    and content of a stored row of the requested user and channel. *)
Theorem get_history_shape
    (hl : nat) (F : faults) (uid : Z) (ch : string) (w : world) :
  exists rest,
    fst (get_history hl F uid ch w) = Returned (system_message :: rest) /\
    (List.length rest <= 2 * hl)%nat /\
    forall m, In m rest ->
      exists r, In r (rows (disk w)) /\ where_key uid ch r = true /\
                m = to_message r.
Proof.
  destruct (get_history_cases hl F uid ch w) as (h & out & E & [-> | ->] & _);
    rewrite E; simpl.
  - exists []. repeat split; simpl; [lia | contradiction].
  - exists (recent_messages hl (disk w) uid ch). split; [reflexivity |].
    rewrite recent_messages_turns_of. split.
    + rewrite length_map, length_rev, length_firstn. lia.
    + intros m Hm. apply in_map_iff in Hm. destruct Hm as (r & <- & Hr).
      apply in_rev, In_firstn_In in Hr.
      apply (proj1 (order_by_id_desc_In _ _)) in Hr.
      unfold turns_of in Hr. apply filter_In in Hr.
      exists r. tauto.
Qed.

(** X10.  A fault on the final [close] comes after the rows were read:
    [get_history] still returns the system prompt followed by the full
    window of messages, and prints the error. *)
Theorem get_history_fault_on_close
    (hl : nat) (F : faults) (uid : Z) (ch : string) (w : world) (e : py_exn) :
  first_fault F get_history_read_calls = None -> F Close = Some e ->
  get_history hl F uid ch w =
    (Returned (system_message :: recent_messages hl (disk w) uid ch),
     mkWorld (disk w) (stdout w ++ [read_error_line e])).
Proof. apply get_history_close_fault. Qed.

Lemma get_history_fault_on_close_witness :
  let F := fault_at Close (PyException "closed") in
  let w := mkWorld (sql_insert empty_table 1 "c" "user" "u1") [] in
  first_fault F get_history_read_calls = None /\
  F Close = Some (PyException "closed") /\
  get_history 1 F 1 "c" w =
    (Returned [system_message; mkMessage "user" "u1"],
     mkWorld (disk w) ["Błąd pobierania historii AI: closed"]).
Proof.
  intros F w.
  assert (H1 : first_fault F get_history_read_calls = None) by reflexivity.
  assert (H2 : F Close = Some (PyException "closed")) by reflexivity.
  split; [exact H1 |]. split; [exact H2 |].
  exact (get_history_fault_on_close 1 F 1 "c" w _ H1 H2).
Defined.

(** ** Further properties of [GiftOperationsAPI] *)

Section GiftFacts.

Import GiftOps GiftSync.

Context {gift_code_row user_giftcode_row : Type}.
Variable gc_giftcode : gift_code_row -> string.
Variable ug_giftcode : user_giftcode_row -> string.
Variable gc_date : gift_code_row -> string.
Variable remote : http_request -> outcome http_response.
Variable json_loads : string -> outcome json.
Variable db_fault : gift_db_call -> option py_exn.
Variable select_fault : option py_exn.

Ltac run_gift :=
  unfold remove_giftcode, sync_with_api, select_gift_codes,
    session_delete, session_get, delete_gift_code, delete_user_giftcode,
    gift_commit, gift_db_step, gift_print, print_exc, lift;
  unfold try_except, bind, get, modify, ret, raise; simpl.

(** Every run of [remove_giftcode(giftcode, True)]: one request is sent;
    either [True] with the deletion committed, or [False] with the file
    untouched and the connection holding none, one or both deletions. *)
Lemma remove_giftcode_cases (giftcode : string) (s : @api_state gift_code_row user_giftcode_row) :
  exists (b : bool) (cn fl : gift_db) (tm : list log_event),
    remove_giftcode gc_giftcode ug_giftcode remote json_loads db_fault
      giftcode true s =
      (Returned b,
       mkApi (api_url s) (api_key s) cn fl
             (sent s ++ [delete_request s giftcode]) tm) /\
    ((b = true /\ cn = db_without gc_giftcode ug_giftcode giftcode (conn s) /\ fl = db_without gc_giftcode ug_giftcode giftcode (conn s)) \/
     (b = false /\ fl = file s /\
      (cn = conn s \/
       cn = mkGiftDb (without_gift_code gc_giftcode giftcode (gift_codes (conn s)))
                     (user_giftcodes (conn s)) \/
       cn = db_without gc_giftcode ug_giftcode giftcode (conn s)))).
Proof.
  run_gift. fold (delete_request s giftcode).
  destruct (remote (delete_request s giftcode)) as [[st tx] | e]; simpl;
    [| eauto 12].
  destruct (st =? 200); simpl; [| eauto 12].
  destruct (tx =? "")%string; simpl; [eauto 12 |].
  destruct (json_loads tx) as [j | e]; simpl; [| eauto 12].
  destruct (py_in "success" j) as [[|] | e]; simpl; [| eauto 12 | eauto 12].
  destruct (db_fault DeleteGiftCode); simpl; [eauto 12 |].
  destruct (db_fault DeleteUserGiftcode); simpl; [eauto 14 |].
  destruct (db_fault Commit); simpl; [eauto 14 |].
  do 4 eexists. split; [reflexivity |]. left. auto.
Qed.

(** X11.  [remove_giftcode] deletes locally only what the remote API
    confirmed: in every run it sends at most one request, the DELETE for
    that code, and the tables seen by the connection and stored in the
    file are left as they were unless [from_validation] is [True] and the
    endpoint answered 200 with a non-empty body that parses to a value
    containing ['success']. *)
Theorem remove_giftcode_deletes_only_after_success
    (giftcode : string) (from_validation : bool)
    (s : @api_state gift_code_row user_giftcode_row) :
  let s' := snd (remove_giftcode gc_giftcode ug_giftcode remote json_loads db_fault
                   giftcode from_validation s) in
  (sent s' = sent s \/ sent s' = (sent s ++ [delete_request s giftcode])%list) /\
  ((conn s' = conn s /\ file s' = file s) \/
   exists body j,
     from_validation = true /\
     remote (delete_request s giftcode) = Returned (mkResponse 200 body) /\
     body <> "" /\
     json_loads body = Returned j /\
     py_in "success" j = Returned true).
Proof.
  destruct from_validation; [| simpl; auto].
  run_gift. fold (delete_request s giftcode).
  destruct (remote (delete_request s giftcode)) as [[st tx] | e] eqn:Er; simpl;
    [| auto].
  destruct (st =? 200) eqn:Est; simpl; [| auto].
  apply Z.eqb_eq in Est. subst st.
  destruct (tx =? "")%string eqn:Etx; simpl; [auto |].
  apply String.eqb_neq in Etx.
  destruct (json_loads tx) as [j | e] eqn:Ej; simpl; [| auto].
  destruct (py_in "success" j) as [[|] | e] eqn:Es; simpl; [| auto | auto].
  assert (Hok : exists body j0,
             true = true /\
             Returned (mkResponse 200 tx) = Returned (mkResponse 200 body) /\
             body <> "" /\ json_loads body = Returned j0 /\
             py_in "success" j0 = Returned true)
    by (exists tx, j; auto).
  destruct (db_fault DeleteGiftCode); simpl; [auto |].
  destruct (db_fault DeleteUserGiftcode); simpl; [auto |].
  destruct (db_fault Commit); simpl; auto.
Qed.

(** X12.  When [remove_giftcode] returns [True], the deletion is done and
    committed: the file equals the connection's view, and neither
    [gift_codes] nor [user_giftcodes] holds a row with that code. *)
Theorem remove_giftcode_true_is_committed
    (giftcode : string) (from_validation : bool) (s s' : @api_state gift_code_row user_giftcode_row) :
  remove_giftcode gc_giftcode ug_giftcode remote json_loads db_fault
      giftcode from_validation s = (Returned true, s') ->
  from_validation = true /\
  file s' = conn s' /\
  file s' = db_without gc_giftcode ug_giftcode giftcode (conn s) /\
  (forall r, In r (gift_codes (file s')) -> gc_giftcode r <> giftcode) /\
  (forall r, In r (user_giftcodes (file s')) -> ug_giftcode r <> giftcode).
Proof.
  destruct from_validation; [| discriminate].
  destruct (remove_giftcode_cases giftcode s)
    as (b & cn & fl & tm & E & [(-> & -> & ->) | (-> & _)]);
    rewrite E; intros [= <-]; simpl.
  repeat split; auto.
  - intros r Hr. unfold without_gift_code in Hr. apply filter_In in Hr.
    destruct Hr as [_ Hr]. apply negb_true_iff, String.eqb_neq in Hr. exact Hr.
  - intros r Hr. unfold without_user_giftcode in Hr. apply filter_In in Hr.
    destruct Hr as [_ Hr]. apply negb_true_iff, String.eqb_neq in Hr. exact Hr.
Qed.

(** X13.  When [remove_giftcode] returns [False], the database file is
    exactly as before the call. *)
Theorem remove_giftcode_false_keeps_file
    (giftcode : string) (from_validation : bool) (s s' : @api_state gift_code_row user_giftcode_row) :
  remove_giftcode gc_giftcode ug_giftcode remote json_loads db_fault
      giftcode from_validation s = (Returned false, s') ->
  file s' = file s.
Proof.
  destruct from_validation.
  - destruct (remove_giftcode_cases giftcode s)
      as (b & cn & fl & tm & E & [(-> & _) | (-> & -> & _)]);
      rewrite E; intros [= <-]; reflexivity.
  - intros [= <-]. reflexivity.
Qed.

(** X14.  Only the presence of the key [success] is tested, not its value:
    on a 200 answer whose body parses to an object with that key, whatever
    is stored under it, the code is deleted from both tables, the deletion
    is committed and [True] is returned. *)
Theorem remove_giftcode_success_key_only
    (giftcode body : string) (fields : list (string * json)) (s : @api_state gift_code_row user_giftcode_row) :
  remote (delete_request s giftcode) = Returned (mkResponse 200 body) ->
  body <> "" ->
  json_loads body = Returned (JObject fields) ->
  existsb (fun kv => (fst kv =? "success")%string) fields = true ->
  (forall c, db_fault c = None) ->
  remove_giftcode gc_giftcode ug_giftcode remote json_loads db_fault
      giftcode true s =
  (Returned true,
   mkApi (api_url s) (api_key s) (db_without gc_giftcode ug_giftcode giftcode (conn s))
         (db_without gc_giftcode ug_giftcode giftcode (conn s))
         (sent s ++ [delete_request s giftcode]) (terminal s)).
Proof.
  intros Hr Hb Hj Hs Hdb. run_gift. fold (delete_request s giftcode).
  rewrite Hr. simpl. apply String.eqb_neq in Hb. rewrite Hb, Hj. simpl.
  rewrite Hs, !Hdb. reflexivity.
Qed.

(** X15.  On an answer whose status is not 200, [remove_giftcode] returns
    [False], deletes nothing (neither in the connection nor in the file),
    and prints the status and the body. *)
Theorem remove_giftcode_http_error
    (giftcode body : string) (st : Z) (s : @api_state gift_code_row user_giftcode_row) :
  remote (delete_request s giftcode) = Returned (mkResponse st body) ->
  st <> 200 ->
  remove_giftcode gc_giftcode ug_giftcode remote json_loads db_fault
      giftcode true s =
  (Returned false,
   mkApi (api_url s) (api_key s) (conn s) (file s)
         (sent s ++ [delete_request s giftcode])
         (terminal s ++ [Printed ("Błąd HTTP " ++ str_int st);
                         Printed ("Treść odpowiedzi: " ++ body)])).
Proof.
  intros Hr Hst. run_gift. fold (delete_request s giftcode).
  rewrite Hr. simpl. apply Z.eqb_neq in Hst. rewrite Hst. simpl.
  now rewrite <- app_assoc.
Qed.

(** X16.  The two DELETE statements are not undone on failure: when the
    first succeeds and the second raises, [remove_giftcode] returns
    [False] and the file is unchanged, but the open connection has already
    lost the rows of [gift_codes] (a later commit would store that). *)
Theorem remove_giftcode_partial_delete
    (giftcode body : string) (j : json) (e : py_exn) (s : @api_state gift_code_row user_giftcode_row) :
  remote (delete_request s giftcode) = Returned (mkResponse 200 body) ->
  body <> "" ->
  json_loads body = Returned j ->
  py_in "success" j = Returned true ->
  db_fault DeleteGiftCode = None ->
  db_fault DeleteUserGiftcode = Some e ->
  remove_giftcode gc_giftcode ug_giftcode remote json_loads db_fault
      giftcode true s =
  (Returned false,
   mkApi (api_url s) (api_key s)
         (mkGiftDb (without_gift_code gc_giftcode giftcode (gift_codes (conn s)))
                   (user_giftcodes (conn s)))
         (file s)
         (sent s ++ [delete_request s giftcode])
         (terminal s ++ [Traceback e])).
Proof.
  intros Hr Hb Hj Hs H1 H2. run_gift. fold (delete_request s giftcode).
  rewrite Hr. simpl. apply String.eqb_neq in Hb. rewrite Hb, Hj. simpl.
  rewrite Hs. simpl. rewrite H1. simpl. rewrite H2. reflexivity.
Qed.

(** X17.  [sync_with_api] mirrors nothing: whatever the endpoint, the
    parser and the storage do, its result is never [True], both tables are
    left as they were (in the connection and in the file), and at most one
    request is sent, a GET. *)
Theorem sync_with_api_mirrors_nothing
    (s : @api_state gift_code_row user_giftcode_row) :
  let r := sync_with_api gc_giftcode gc_date remote json_loads select_fault s in
  fst r <> Returned (Some true) /\
  conn (snd r) = conn s /\ file (snd r) = file s /\
  (sent (snd r) = sent s \/ sent (snd r) = (sent s ++ [list_request s])%list).
Proof.
  run_gift.
  destruct select_fault as [e |]; simpl.
  { repeat split; auto. discriminate. }
  change (mkRequest "GET" (api_url s) []
            [("X-API-Key", api_key s); ("Content-Type", "application/json")])
    with (list_request s).
  destruct (remote (list_request s)) as [[st tx] | e]; simpl.
  2: { repeat split; auto. discriminate. }
  destruct (st =? 200); simpl.
  2: { repeat split; auto. discriminate. }
  destruct (tx =? "")%string; simpl.
  { repeat split; auto. discriminate. }
  destruct (json_loads tx) as [j | e]; simpl.
  2: { repeat split; auto. discriminate. }
  destruct (py_in "error" j) as [[|] | e]; simpl.
  - repeat split; auto. discriminate.
  - destruct (py_get "codes" (JArray []) j); simpl;
      repeat split; auto; discriminate.
  - repeat split; auto. discriminate.
Qed.

(** X18.  An answer whose status is not 200 is dropped in silence:
    [sync_with_api] returns [None] and prints nothing. *)
Theorem sync_with_api_http_error_silent (body : string) (st : Z) (s : @api_state gift_code_row user_giftcode_row) :
  select_fault = None ->
  remote (list_request s) = Returned (mkResponse st body) ->
  st <> 200 ->
  sync_with_api gc_giftcode gc_date remote json_loads select_fault s =
  (Returned None,
   mkApi (api_url s) (api_key s) (conn s) (file s)
         (sent s ++ [list_request s]) (terminal s)).
Proof.
  intros Hf Hr Hst. run_gift. rewrite Hf. simpl.
  change (mkRequest "GET" (api_url s) []
            [("X-API-Key", api_key s); ("Content-Type", "application/json")])
    with (list_request s).
  rewrite Hr. simpl.
  apply Z.eqb_neq in Hst. rewrite Hst. reflexivity.
Qed.

(** X19.  When the SELECT on [gift_codes] raises, [sync_with_api] sends no
    request at all: it logs the traceback and returns [None]. *)
Theorem sync_with_api_storage_fault (e : py_exn) (s : @api_state gift_code_row user_giftcode_row) :
  select_fault = Some e ->
  sync_with_api gc_giftcode gc_date remote json_loads select_fault s =
  (Returned None,
   mkApi (api_url s) (api_key s) (conn s) (file s) (sent s)
         (terminal s ++ [Traceback e])).
Proof.
  intros Hf. run_gift. rewrite Hf. reflexivity.
Qed.

End GiftFacts.

Section GiftWitnesses.

Import GiftOps GiftSync GiftSample.

Lemma remove_giftcode_success_key_only_witness :
  let remote := answers 200 "{}" in
  let loads := parses_to (JObject [("success", JBool false)]) in
  remove_giftcode fst snd remote loads no_db_fault "ABC" true sample_state =
  (Returned true,
   mkApi "https://gift.example/api" "key"
         (mkGiftDb [("XYZ", "2024-02-02")] [(2, "XYZ")])
         (mkGiftDb [("XYZ", "2024-02-02")] [(2, "XYZ")])
         [delete_request sample_state "ABC"] []).
Proof.
  intros remote loads.
  refine (remove_giftcode_success_key_only fst snd remote loads no_db_fault
            "ABC" "{}" [("success", JBool false)] sample_state
            _ _ _ _ _).
  - reflexivity.
  - discriminate.
  - reflexivity.
  - reflexivity.
  - reflexivity.
Defined.

Lemma remove_giftcode_true_is_committed_witness :
  let remote := answers 200 "{}" in
  let loads := parses_to (JObject [("success", JBool true)]) in
  let s' := snd (remove_giftcode fst snd remote loads no_db_fault
                   "ABC" true sample_state) in
  remove_giftcode fst snd remote loads no_db_fault "ABC" true sample_state =
    (Returned true, s') /\
  file s' = conn s' /\
  file s' = mkGiftDb [("XYZ", "2024-02-02")] [(2, "XYZ")].
Proof.
  intros remote loads s'.
  assert (E : remove_giftcode fst snd remote loads no_db_fault "ABC" true sample_state =
              (Returned true, s')) by reflexivity.
  split; [exact E |].
  pose proof (remove_giftcode_true_is_committed fst snd remote loads no_db_fault
                "ABC" true sample_state s' E) as (_ & H1 & H2 & _).
  split; [exact H1 | exact H2].
Defined.

Lemma remove_giftcode_false_keeps_file_witness :
  let remote := answers 200 "{}" in
  let loads := parses_to (JObject [("error", JString "unknown code")]) in
  let s' := snd (remove_giftcode fst snd remote loads no_db_fault
                   "ABC" true sample_state) in
  remove_giftcode fst snd remote loads no_db_fault "ABC" true sample_state =
    (Returned false, s') /\
  file s' = sample_db.
Proof.
  intros remote loads s'.
  assert (E : remove_giftcode fst snd remote loads no_db_fault "ABC" true sample_state =
              (Returned false, s')) by reflexivity.
  split; [exact E |].
  exact (remove_giftcode_false_keeps_file fst snd remote loads no_db_fault
           "ABC" true sample_state s' E).
Defined.

Lemma remove_giftcode_http_error_witness :
  let remote := answers 404 "not found" in
  let loads := parses_to JNull in
  remove_giftcode fst snd remote loads no_db_fault "ABC" true sample_state =
  (Returned false,
   mkApi "https://gift.example/api" "key" sample_db sample_db
         [delete_request sample_state "ABC"]
         [Printed "Błąd HTTP 404"; Printed "Treść odpowiedzi: not found"]).
Proof.
  intros remote loads.
  refine (remove_giftcode_http_error fst snd remote loads no_db_fault
            "ABC" "not found" 404 sample_state _ _).
  - reflexivity.
  - discriminate.
Defined.

Lemma remove_giftcode_partial_delete_witness :
  let remote := answers 200 "{}" in
  let loads := parses_to (JObject [("success", JBool true)]) in
  let e := PyException "database is locked" in
  remove_giftcode fst snd remote loads (db_fault_at_user_delete e)
    "ABC" true sample_state =
  (Returned false,
   mkApi "https://gift.example/api" "key"
         (mkGiftDb [("XYZ", "2024-02-02")] [(1, "ABC"); (2, "XYZ"); (3, "ABC")])
         sample_db
         [delete_request sample_state "ABC"]
         [Traceback e]).
Proof.
  intros remote loads e.
  refine (remove_giftcode_partial_delete fst snd remote loads
            (db_fault_at_user_delete e) "ABC" "{}"
            (JObject [("success", JBool true)]) e sample_state
            _ _ _ _ _ _).
  - reflexivity.
  - discriminate.
  - reflexivity.
  - reflexivity.
  - reflexivity.
  - reflexivity.
Defined.

Lemma sync_with_api_http_error_silent_witness :
  let remote := answers 500 "oops" in
  let loads := parses_to JNull in
  sync_with_api fst snd remote loads None sample_state =
  (Returned None,
   mkApi "https://gift.example/api" "key" sample_db sample_db
         [list_request sample_state] []).
Proof.
  intros remote loads.
  refine (sync_with_api_http_error_silent fst snd remote loads None
            "oops" 500 sample_state _ _ _).
  - reflexivity.
  - reflexivity.
  - discriminate.
Defined.

Lemma sync_with_api_storage_fault_witness :
  let remote := answers 200 "{}" in
  let loads := parses_to (JObject []) in
  let e := PyException "no such table: gift_codes" in
  sync_with_api fst snd remote loads (Some e) sample_state =
  (Returned None,
   mkApi "https://gift.example/api" "key" sample_db sample_db [] [Traceback e]).
Proof.
  intros remote loads e.
  refine (sync_with_api_storage_fault fst snd remote loads (Some e) e
            sample_state _).
  reflexivity.
Defined.

End GiftWitnesses.

(** ** Properties of [on_message] *)

Section OnMessageFacts.

Variable hl : nat.
Variable strip : string -> string.
Variables F_history F_user F_assistant : faults.
Variable typing_fault : option py_exn.
Variable reply_fault : string -> option py_exn.
Variable post : chat_request -> outcome chat_response.
Variable reply_content : string -> outcome string.

Ltac run_bot :=
  unfold lift_store, lift_outcome, channel_typing, message_reply, requests_post,
    bot_print;
  unfold try_except, bind, get, modify, ret, raise; simpl.

Ltac pass_tests Hh :=
  let Hb := fresh in let Hg := fresh in let Hc := fresh in let Hs := fresh in
  destruct Hh as (Hb & Hg & Hc & Hs);
  unfold on_message; rewrite Hb, Hg, Hc; simpl;
  apply String.eqb_neq in Hs; rewrite Hs.

(** X20.  Messages written by a bot, sent outside a guild, sent in another
    channel than [CHANNEL_NAME], or blank once stripped are ignored: no
    history is read, no request is made, nothing is replied, printed or
    stored. *)
Theorem on_message_ignores (msg : discord_message) (s : bot_state) :
  ignored msg strip ->
  on_message hl strip F_history F_user F_assistant typing_fault
    reply_fault post reply_content msg s = (Returned tt, s).
Proof.
  unfold ignored, on_message. intros H.
  destruct (m_author_bot msg); simpl; [reflexivity |].
  destruct (m_guild msg); simpl; [| reflexivity].
  destruct (m_channel_name msg =? CHANNEL_NAME)%string eqn:Ec; simpl;
    [| reflexivity].
  destruct (strip (m_content msg) =? "")%string eqn:Es; simpl;
    [reflexivity |].
  apply String.eqb_eq in Ec. apply String.eqb_neq in Es.
  destruct H as [H | [H | [H | H]]]; congruence.
Qed.

(** X21.  No exception of the endpoint request, of the parsing of its
    answer or of the storage leaves [on_message]: when the awaited Discord
    calls complete, that is [typing()] does not raise and no
    [message.reply] raises, [on_message] returns normally. *)
Theorem on_message_contains_endpoint_errors (msg : discord_message) (s : bot_state) :
  typing_fault = None ->
  (forall reply, reply_fault reply = None) ->
  fst (on_message hl strip F_history F_user F_assistant typing_fault
    reply_fault post reply_content msg s) = Returned tt.
Proof.
  intros Ht Hr. unfold on_message.
  destruct (m_author_bot msg || negb (m_guild msg)); [reflexivity |].
  destruct (negb (m_channel_name msg =? CHANNEL_NAME)%string); [reflexivity |].
  destruct (strip (m_content msg) =? "")%string; [reflexivity |].
  run_bot.
  destruct (get_history_cases hl F_history (m_author_id msg)
              (m_channel_name msg) (store s)) as (h & out & -> & _).
  rewrite Ht. simpl.
  destruct (post _) as [[st body] | e]; simpl; [| rewrite Hr; reflexivity].
  destruct (st =? 200); simpl.
  - destruct (reply_content body) as [ai | e]; simpl; [| rewrite Hr; reflexivity].
    destruct (reply_fault ai); simpl; [rewrite Hr; reflexivity |].
    destruct (save_message_cases hl F_user (m_author_id msg)
                (m_channel_name msg) "user" (strip (m_content msg))
                (mkWorld (disk (store s)) out)) as (d1 & o1 & -> & _).
    simpl.
    destruct (save_message_cases hl F_assistant (m_author_id msg)
                (m_channel_name msg) "assistant" ai
                (mkWorld d1 o1)) as (d2 & o2 & -> & _).
    reflexivity.
  - destruct (reply_fault "Wystąpił błąd przy komunikacji z AI."); simpl;
      [rewrite Hr |]; reflexivity.
Qed.

(** X22.  [typing()] is called outside the [try] statement: when it raises
    on a message that is handled, the exception leaves [on_message]; the
    history was read, but no request is made, nothing is replied and the
    table is unchanged. *)
Theorem on_message_typing_raises
    (msg : discord_message) (s : bot_state) (e : py_exn) :
  handled msg strip ->
  typing_fault = Some e ->
  exists out,
    on_message hl strip F_history F_user F_assistant typing_fault
    reply_fault post reply_content msg s =
      (Raised e, mkBot (mkWorld (disk (store s)) out) (discord s) (posted s)).
Proof.
  intros Hh Ht. pass_tests Hh. run_bot.
  destruct (get_history_cases hl F_history (m_author_id msg)
              CHANNEL_NAME (store s)) as (h & out & -> & _).
  rewrite Ht. simpl. now exists out.
Qed.

Lemma on_message_exchange_run
    (msg : discord_message) (s : bot_state)
    (history : list message) (w : world) (body ai : string) :
  handled msg strip ->
  typing_fault = None ->
  get_history hl F_history (m_author_id msg) (m_channel_name msg) (store s) =
    (Returned history, w) ->
  post (chat_request_of (history ++ [prompt_message msg strip])) =
    Returned (mkChatResponse 200 body) ->
  reply_content body = Returned ai ->
  reply_fault ai = None ->
  on_message hl strip F_history F_user F_assistant typing_fault
    reply_fault post reply_content msg s =
    (Returned tt,
     mkBot (snd (save_message hl F_assistant (m_author_id msg)
                   (m_channel_name msg) "assistant" ai
                   (snd (save_message hl F_user (m_author_id msg)
                           (m_channel_name msg) "user"
                           (strip (m_content msg)) w))))
           (discord s ++ [Typing (m_channel_name msg); Reply ai false])
           (posted s ++ [chat_request_of (history ++ [prompt_message msg strip])])).
Proof.
  intros Hh Ht Hg Hp Hc Hr. unfold prompt_message in *.
  assert (Hch : m_channel_name msg = CHANNEL_NAME) by apply Hh.
  rewrite Hch in *. pass_tests Hh. run_bot.
  rewrite Hg, Ht. simpl. rewrite Hp. simpl. rewrite Hc. simpl. rewrite Hr. simpl.
  destruct (save_message_cases hl F_user (m_author_id msg)
              CHANNEL_NAME "user" (strip (m_content msg)) w)
    as (d1 & o1 & E1 & _).
  rewrite E1. simpl.
  destruct (save_message_cases hl F_assistant (m_author_id msg)
              CHANNEL_NAME "assistant" ai (mkWorld d1 o1))
    as (d2 & o2 & E2 & _).
  rewrite E2. simpl. now rewrite <- app_assoc.
Qed.

(** X23.  A successful exchange: on a handled message, when the endpoint
    answers 200 with a text content and the reply is delivered, the
    endpoint has received the history of the author in the channel followed
    by the stripped message as a [user] turn; the answer is sent as a reply
    without mention; then the prompt and the answer are saved, in that
    order, under the author and the channel. *)
Theorem on_message_exchange
    (msg : discord_message) (s : bot_state)
    (history : list message) (w : world) (body ai : string) :
  handled msg strip ->
  typing_fault = None ->
  get_history hl F_history (m_author_id msg) (m_channel_name msg) (store s) =
    (Returned history, w) ->
  post (chat_request_of (history ++ [prompt_message msg strip])) =
    Returned (mkChatResponse 200 body) ->
  reply_content body = Returned ai ->
  reply_fault ai = None ->
  on_message hl strip F_history F_user F_assistant typing_fault
    reply_fault post reply_content msg s =
    (Returned tt,
     mkBot (snd (save_message hl F_assistant (m_author_id msg)
                   (m_channel_name msg) "assistant" ai
                   (snd (save_message hl F_user (m_author_id msg)
                           (m_channel_name msg) "user"
                           (strip (m_content msg)) w))))
           (discord s ++ [Typing (m_channel_name msg); Reply ai false])
           (posted s ++ [chat_request_of (history ++ [prompt_message msg strip])])).
Proof. apply on_message_exchange_run. Qed.

(** X25.  The table changes only after the answer was delivered: whatever
    happens, either the table on disk is as before the call, or the
    endpoint answered 200 with a text content that was sent as a reply. *)
Theorem on_message_saves_only_after_reply (msg : discord_message) (s : bot_state) :
  let s' := snd (on_message hl strip F_history F_user F_assistant typing_fault
    reply_fault post reply_content msg s) in
  disk (store s') = disk (store s) \/
  exists rq body ai,
    post rq = Returned (mkChatResponse 200 body) /\
    reply_content body = Returned ai /\
    discord s' = (discord s ++ [Typing (m_channel_name msg); Reply ai false])%list.
Proof.
  unfold on_message.
  destruct (m_author_bot msg || negb (m_guild msg)); [now left |].
  destruct (negb (m_channel_name msg =? CHANNEL_NAME)%string); [now left |].
  destruct (strip (m_content msg) =? "")%string; [now left |].
  run_bot.
  destruct (get_history_cases hl F_history (m_author_id msg)
              (m_channel_name msg) (store s)) as (h & out & -> & _).
  destruct typing_fault; simpl; [now left |].
  destruct (post _) as [[st body] | e] eqn:Ep; simpl.
  2: { destruct (reply_fault "Wystąpił błąd techniczny."); simpl; now left. }
  destruct (st =? 200) eqn:Est; simpl.
  - apply Z.eqb_eq in Est. subst st.
    destruct (reply_content body) as [ai | e] eqn:Ec; simpl.
    2: { destruct (reply_fault "Wystąpił błąd techniczny."); simpl; now left. }
    destruct (reply_fault ai); simpl.
    { destruct (reply_fault "Wystąpił błąd techniczny."); simpl; now left. }
    destruct (save_message_cases hl F_user (m_author_id msg)
                (m_channel_name msg) "user" (strip (m_content msg))
                (mkWorld (disk (store s)) out)) as (d1 & o1 & -> & _).
    simpl.
    destruct (save_message_cases hl F_assistant (m_author_id msg)
                (m_channel_name msg) "assistant" ai
                (mkWorld d1 o1)) as (d2 & o2 & -> & _).
    simpl. right. exists (chat_request_of (h ++ [mkMessage "user" (strip (m_content msg))])),
      body, ai.
    repeat split; auto. now rewrite <- app_assoc.
  - destruct (reply_fault "Wystąpił błąd przy komunikacji z AI."); simpl;
      [destruct (reply_fault "Wystąpił błąd techniczny."); simpl |]; now left.
Qed.

(** X26.  When the endpoint answers with a status other than 200, the
    status and the body are printed, the author is told
    "Wystąpił błąd przy komunikacji z AI." and neither the message nor
    anything else is saved. *)
Theorem on_message_http_error
    (msg : discord_message) (s : bot_state)
    (history : list message) (w : world) (st : Z) (body : string) :
  handled msg strip ->
  typing_fault = None ->
  get_history hl F_history (m_author_id msg) (m_channel_name msg) (store s) =
    (Returned history, w) ->
  post (chat_request_of (history ++ [prompt_message msg strip])) =
    Returned (mkChatResponse st body) ->
  st <> 200 ->
  reply_fault "Wystąpił błąd przy komunikacji z AI." = None ->
  on_message hl strip F_history F_user F_assistant typing_fault
    reply_fault post reply_content msg s =
    (Returned tt,
     mkBot (mkWorld (disk w) (stdout w ++ [ai_error_line st body]))
           (discord s ++ [Typing (m_channel_name msg);
                          Reply "Wystąpił błąd przy komunikacji z AI." false])
           (posted s ++ [chat_request_of (history ++ [prompt_message msg strip])])) /\
  disk w = disk (store s).
Proof.
  intros Hh Ht Hg Hp Hst Hr. unfold prompt_message, ai_error_line in *.
  assert (Hd : disk w = disk (store s)).
  { destruct (get_history_cases hl F_history (m_author_id msg)
                (m_channel_name msg) (store s)) as (h & out & E & _).
    rewrite E in Hg. injection Hg as _ <-. reflexivity. }
  split; [| exact Hd].
  assert (Hch : m_channel_name msg = CHANNEL_NAME) by apply Hh.
  rewrite Hch in *. pass_tests Hh. run_bot.
  rewrite Hg, Ht. simpl. rewrite Hp. simpl.
  apply Z.eqb_neq in Hst. rewrite Hst. simpl. rewrite Hr. simpl.
  now rewrite <- app_assoc.
Qed.

(** X27.  When the request to the endpoint raises (timeout, connection
    error), the author is told "Wystąpił błąd techniczny.", the error is
    printed and nothing is saved. *)
Theorem on_message_post_raises
    (msg : discord_message) (s : bot_state)
    (history : list message) (w : world) (e : py_exn) :
  handled msg strip ->
  typing_fault = None ->
  get_history hl F_history (m_author_id msg) (m_channel_name msg) (store s) =
    (Returned history, w) ->
  post (chat_request_of (history ++ [prompt_message msg strip])) = Raised e ->
  reply_fault "Wystąpił błąd techniczny." = None ->
  on_message hl strip F_history F_user F_assistant typing_fault
    reply_fault post reply_content msg s =
    (Returned tt,
     mkBot (mkWorld (disk w) (stdout w ++ ["Błąd AIChat: " ++ str_exn e]))
           (discord s ++ [Typing (m_channel_name msg);
                          Reply "Wystąpił błąd techniczny." false])
           (posted s ++ [chat_request_of (history ++ [prompt_message msg strip])])) /\
  disk w = disk (store s).
Proof.
  intros Hh Ht Hg Hp Hr. unfold prompt_message in *.
  assert (Hd : disk w = disk (store s)).
  { destruct (get_history_cases hl F_history (m_author_id msg)
                (m_channel_name msg) (store s)) as (h & out & E & _).
    rewrite E in Hg. injection Hg as _ <-. reflexivity. }
  split; [| exact Hd].
  assert (Hch : m_channel_name msg = CHANNEL_NAME) by apply Hh.
  rewrite Hch in *. pass_tests Hh. run_bot.
  rewrite Hg, Ht. simpl. rewrite Hp. simpl. rewrite Hr. simpl.
  now rewrite <- app_assoc.
Qed.

End OnMessageFacts.


Section BotWitnesses.

Import BotSample.

Lemma on_message_ignores_witness :
  ignored sample_bot_message stripped /\
  on_message 10 stripped no_faults no_faults no_faults None replies_delivered
    (endpoint_answers 200 "{}") (content_is "siema") sample_bot_message sample_bot =
  (Returned tt, sample_bot).
Proof.
  assert (H : ignored sample_bot_message stripped) by (left; reflexivity).
  split; [exact H |].
  exact (on_message_ignores 10 stripped no_faults no_faults no_faults None
           replies_delivered (endpoint_answers 200 "{}") (content_is "siema")
           sample_bot_message sample_bot H).
Defined.

Lemma on_message_contains_endpoint_errors_witness :
  (forall reply, replies_delivered reply = None) /\
  fst (on_message 10 stripped no_faults no_faults no_faults None replies_delivered
         (endpoint_raises (PyException "timeout")) (content_is "siema")
         sample_message sample_bot) = Returned tt.
Proof.
  assert (H : forall reply, replies_delivered reply = None)
    by (intros reply; reflexivity).
  split; [exact H |].
  exact (on_message_contains_endpoint_errors 10 stripped no_faults no_faults
           no_faults None replies_delivered
           (endpoint_raises (PyException "timeout"))
           (content_is "siema") sample_message sample_bot eq_refl H).
Defined.

Lemma sample_message_handled : handled sample_message stripped.
Proof. repeat split. discriminate. Defined.

Lemma on_message_typing_raises_witness :
  handled sample_message stripped /\
  exists out,
    on_message 10 stripped no_faults no_faults no_faults
      (Some (PyException "forbidden")) replies_delivered
      (endpoint_answers 200 "{}") (content_is "siema") sample_message sample_bot =
    (Raised (PyException "forbidden"),
     mkBot (mkWorld empty_table out) [] []).
Proof.
  split; [exact sample_message_handled |].
  exact (on_message_typing_raises 10 stripped no_faults no_faults no_faults
           (Some (PyException "forbidden")) replies_delivered
           (endpoint_answers 200 "{}") (content_is "siema")
           sample_message sample_bot (PyException "forbidden")
           sample_message_handled eq_refl).
Defined.

Lemma on_message_exchange_witness :
  rows (disk (store (snd
    (on_message 1 stripped no_faults no_faults no_faults None replies_delivered
       (endpoint_answers 200 "{}") (content_is "siema")
       sample_message sample_bot)))) =
  [mkRow 1 7 CHANNEL_NAME "user" "hej"; mkRow 2 7 CHANNEL_NAME "assistant" "siema"].
Proof.
  rewrite (on_message_exchange 1 stripped no_faults no_faults no_faults None
             replies_delivered (endpoint_answers 200 "{}") (content_is "siema")
             sample_message sample_bot [system_message] (store sample_bot)
             "{}" "siema" sample_message_handled eq_refl eq_refl eq_refl
             eq_refl eq_refl).
  reflexivity.
Defined.


Lemma on_message_http_error_witness :
  on_message 1 stripped no_faults no_faults no_faults None replies_delivered
    (endpoint_answers 429 "slow down") (content_is "siema")
    sample_message sample_bot =
  (Returned tt,
   mkBot (mkWorld empty_table [ai_error_line 429 "slow down"])
         [Typing CHANNEL_NAME; Reply "Wystąpił błąd przy komunikacji z AI." false]
         [chat_request_of [system_message; mkMessage "user" "hej"]]).
Proof.
  exact (proj1 (on_message_http_error 1 stripped no_faults no_faults no_faults None
                  replies_delivered (endpoint_answers 429 "slow down")
                  (content_is "siema") sample_message sample_bot
                  [system_message] (store sample_bot) 429 "slow down"
                  sample_message_handled eq_refl eq_refl eq_refl
                  ltac:(discriminate) eq_refl)).
Defined.

Lemma on_message_post_raises_witness :
  on_message 1 stripped no_faults no_faults no_faults None replies_delivered
    (endpoint_raises (PyException "timeout")) (content_is "siema")
    sample_message sample_bot =
  (Returned tt,
   mkBot (mkWorld empty_table ["Błąd AIChat: timeout"])
         [Typing CHANNEL_NAME; Reply "Wystąpił błąd techniczny." false]
         [chat_request_of [system_message; mkMessage "user" "hej"]]).
Proof.
  exact (proj1 (on_message_post_raises 1 stripped no_faults no_faults no_faults None
                  replies_delivered (endpoint_raises (PyException "timeout"))
                  (content_is "siema") sample_message sample_bot
                  [system_message] (store sample_bot) (PyException "timeout")
                  sample_message_handled eq_refl eq_refl eq_refl eq_refl)).
Defined.

End BotWitnesses.
